(** * gofloaters-poc: the PDF <-> JSON layout model

    A shallow embedding of the four variants of the converter that the
    repository holds, and the properties of its layout model:

    - [AppJs]     : src/app.js (upload staged by multer under uploads/)
    - [LambdaApp] : the variant with multer memory storage, whose
                    /jsonToPdf answers a base64 envelope
    - [ApiApp]    : the variant with the /api/pdf-to-json and
                    /api/json-to-pdf routes
    - [DiskApp]   : the variant with multer disk storage under /tmp

    [LambdaApp] and [DiskApp] share the text of their page extraction
    and of their page reconstruction; it is embedded once, in
    [Extractor] and [Reconstructor].  The text of [LambdaApp] declares
    [PDFDocument] and [rgb] twice with [const], so that it does not load
    as it stands; its handlers are embedded as they are written, next to
    those of [DiskApp].

    The numbers that the handlers carry from a request or a document to
    a call are reals, and the terms that the code builds from them
    ([h - y], [h - y - height], [Math.hypot(a, b)]) are kept as they are
    written: no statement rests on an identity of real arithmetic that
    rounding breaks.  What the subtractions of the coordinate
    conversions compute is settled in [Binary64], in the arithmetic of
    the binary64 format.  The external collaborators (pdfjs-dist,
    pdf-lib, canvas, sharp, Buffer) are the fields of the classes
    [PdfJs], [PdfLib] and [Sharp]. *)

From Stdlib Require Import Reals Lra List String Ascii Bool Arith NArith ZArith Lia.
From Stdlib Require Import Permutation.
From Stdlib Require Floats.
Import ListNotations.

(* ===================================================================== *)
(** * JavaScript values and strings                                       *)
(* ===================================================================== *)

Module JS.

Local Open Scope string_scope.

(** The JSON values a field can hold, plus [undefined] for a field that
    is absent.  [JObject] stands for any object or array: all of them
    are truthy. *)
Inductive value : Type :=
| JUndefined
| JNull
| JBool (b : bool)
| JNum (r : R)
| JStr (s : string)
| JObject.

(** ToBoolean. *)
Definition truthy (v : value) : bool :=
  match v with
  | JUndefined | JNull => false
  | JBool b => b
  | JNum r => if Req_dec_T r 0 then false else true
  | JStr s => negb (String.eqb s "")
  | JObject => true
  end.

(** [a || b] *)
Definition or (a b : value) : value := if truthy a then a else b.

(** [a || b] on numbers: [0] is the only falsy real. *)
Definition num_or (a b : R) : R := if Req_dec_T a 0 then b else a.

(** [Math.hypot(a, b)] *)
Definition hypot (a b : R) : R := sqrt (a * a + b * b).

(** [hay.includes(needle)] *)
Fixpoint includes (needle hay : string) : bool :=
  if String.prefix needle hay then true
  else match hay with
       | EmptyString => false
       | String _ rest => includes needle rest
       end.

(** The regular-expression class [\w]. *)
Definition is_word_char (c : ascii) : bool :=
  let n := nat_of_ascii c in
  (((48 <=? n) && (n <=? 57)) || ((65 <=? n) && (n <=? 90))
   || ((97 <=? n) && (n <=? 122)) || (n =? 95))%nat.

(** Removes [p] from the front of [s]. *)
Fixpoint strip_prefix (p s : string) : option string :=
  match p, s with
  | EmptyString, _ => Some s
  | String a p', String b s' =>
      if Ascii.eqb a b then strip_prefix p' s' else None
  | String _ _, EmptyString => None
  end.

(** Drops the longest run of [\w] characters. *)
Fixpoint drop_word (s : string) : string :=
  match s with
  | String c rest => if is_word_char c then drop_word rest else s
  | EmptyString => s
  end.

(** [src.replace(/^data:image\/\w+;base64,/, '')].  The character after
    the [\w+] run must be [;], which is not a word character, so only
    the longest run can match. *)
Definition strip_data_uri (src : string) : string :=
  match strip_prefix "data:image/" src with
  | None => src
  | Some rest =>
      match rest with
      | String c _ =>
          if is_word_char c then
            match strip_prefix ";base64," (drop_word rest) with
            | Some payload => payload
            | None => src
            end
          else src
      | EmptyString => src
      end
  end.

(** [x === y] for a number [x] and a property [y] of a table of
    numbers, [None] when the table has no such property: the property
    then reads [undefined], which is strictly equal to no number. *)
Definition same_code (x : nat) (y : option nat) : bool :=
  match y with
  | Some code => Nat.eqb x code
  | None => false
  end.

(** [x === s] for a number [x] and a string [s]: strict equality
    converts nothing, and a number is no string. *)
Definition number_is_string (x : nat) (s : string) : bool := false.

(** [Array.prototype.sort(cmp)] on a copy of the array, as V8 sorts
    since its release 7.0 (Node 11).  An array of fewer than 64 elements
    is sorted in one pass: the run at its front is found
    ([CountAndMakeRun]) and every element after it is put into place by
    a binary search ([BinaryInsertionSort]); that pass is what is
    embedded here.  A longer array is cut into such runs, which are
    merged: for a comparator that is a consistent order the result is the
    same array, the one that is sorted and stable. *)

(** How far the run that ends in [previous] goes on into [rest]: an
    ascending run stops at the first element that comes before its
    predecessor, a descending run at the first that does not. *)
Fixpoint run_length {A : Type} (cmp : A -> A -> Z) (descending : bool)
  (previous : A) (rest : list A) : nat :=
  match rest with
  | [] => O
  | current :: rest' =>
      let order := cmp current previous in
      if (if descending then 0 <=? order else order <? 0)%Z then O
      else S (run_length cmp descending current rest')
  end.

(** [CountAndMakeRun]: the run at the front of the array, reversed when
    it is descending, and the elements after it. *)
Definition count_and_make_run {A : Type} (cmp : A -> A -> Z) (l : list A)
  : list A * list A :=
  match l with
  | elementHigh :: elementLow :: rest =>
      let descending := (cmp elementLow elementHigh <? 0)%Z in
      let runLength := S (S (run_length cmp descending elementLow rest)) in
      let run := firstn runLength l in
      (if descending then rev run else run, skipn runLength l)
  | _ => (l, [])
  end.

(** The search of [BinaryInsertionSort] for the place of [pivot] among
    the sorted elements from [left] up to [right]:
    [while (left < right) { mid = left + ((right - left) >> 1);
    if (cmp(pivot, a[mid]) < 0) right = mid; else left = mid + 1; }].
    The distance of [left] and [right] shrinks at every turn: [fuel] turns
    are enough when it is at most [fuel]. *)
Fixpoint search {A : Type} (cmp : A -> A -> Z) (pivot : A)
  (sorted : list A) (fuel left right : nat) : nat :=
  match fuel with
  | O => left
  | S fuel' =>
      if (left <? right)%nat then
        let mid := (left + (right - left) / 2)%nat in
        match nth_error sorted mid with
        | Some x =>
            if (cmp pivot x <? 0)%Z
            then search cmp pivot sorted fuel' left mid
            else search cmp pivot sorted fuel' (S mid) right
        | None => left
        end
      else left
  end.

(** One turn of [BinaryInsertionSort]: the pivot goes to the place the
    search found, the elements from there on move up by one. *)
Definition insert {A : Type} (cmp : A -> A -> Z) (sorted : list A)
  (pivot : A) : list A :=
  let left :=
    search cmp pivot sorted (List.length sorted) 0 (List.length sorted) in
  firstn left sorted ++ pivot :: skipn left sorted.

Definition sort {A : Type} (cmp : A -> A -> Z) (l : list A) : list A :=
  fold_left (insert cmp) (snd (count_and_make_run cmp l))
            (fst (count_and_make_run cmp l)).

End JS.

(* ===================================================================== *)
(** * Control: state and exceptions                                       *)
(* ===================================================================== *)

(** A handler runs over a state [S] (the file system for the extractor,
    the trace of calls on the output document for the reconstructor) and
    may throw; the state reached when it throws is kept, as it is for a
    [catch] block. *)
Definition M (S A : Type) : Type := S -> S * option A.

Definition ret {S A : Type} (a : A) : M S A := fun s => (s, Some a).

Definition bind {S A B : Type} (m : M S A) (f : A -> M S B) : M S B :=
  fun s =>
    match m s with
    | (s', Some a) => f a s'
    | (s', None) => (s', None)
    end.

Definition throw {S A : Type} : M S A := fun s => (s, None).

(** [try { m } catch { h }] *)
Definition try_catch {S A : Type} (m : M S A) (h : M S A) : M S A :=
  fun s =>
    match m s with
    | (s', Some a) => (s', Some a)
    | (s', None) => h s'
    end.

(** A collaborator call that throws when it has no result. *)
Definition lift {S A : Type} (o : option A) : M S A :=
  match o with
  | Some a => ret a
  | None => throw
  end.

Declare Scope js_scope.
Delimit Scope js_scope with js.
Notation "x <- m ;; k" := (bind m (fun x => k))
  (at level 61, m at next level, right associativity) : js_scope.
Notation "m ;; k" := (bind m (fun _ => k))
  (at level 61, right associativity) : js_scope.

(** [for (const x of xs) { body }] *)
Fixpoint for_of {S X : Type} (xs : list X) (body : X -> M S unit)
  : M S unit :=
  match xs with
  | [] => ret tt
  | x :: rest => bind (body x) (fun _ => for_of rest body)
  end.

(** What the client of a route observes.  [Uncaught] is an exception that
    leaves the [async] handler: no response is sent. *)
Inductive Response (A : Type) : Type :=
| Ok200 (payload : A)
| Failed (status : nat) (error : string)
| Uncaught.
Arguments Ok200 {A} payload.
Arguments Failed {A} status error.
Arguments Uncaught {A}.

Definition is_user_error {A : Type} (r : Response A) : bool :=
  match r with
  | Failed status _ => ((400 <=? status) && (status <? 500))%nat
  | _ => false
  end.

Definition is_success {A : Type} (r : Response A) : bool :=
  match r with
  | Ok200 _ => true
  | _ => false
  end.

(* ===================================================================== *)
(** * Binary64 arithmetic                                                 *)
(* ===================================================================== *)

(** The numbers of the program are binary64 values, and what the
    coordinate conversions give back depends on their rounding.  A finite
    number of the format is a multiple of [2^-1074] with at most 53
    significant bits; it is held here as that multiple, an integer.  The
    result of an operation is the exact result rounded to the nearest
    number of the format, to the even one of two that are as near, and
    an infinity from [2^1024] on.  The sign of a zero, which no
    comparison sees, is not kept. *)
Module Binary64.

Import Floats.
Local Open Scope Z_scope.

Inductive number : Type :=
| Finite (n : Z)
| Infinity (negative : bool)
| NaN.

(** [n] with its lowest [k] bits rounded away. *)
Definition round_at (k n : Z) : Z :=
  let q := n / 2 ^ k in
  let r := n mod 2 ^ k in
  let half := 2 ^ (k - 1) in
  (if r <? half then q
   else if half <? r then q + 1
   else if Z.even q then q else q + 1) * 2 ^ k.

(** The number of the format for the exact value [n * 2^-1074]: the
    bits beyond the highest 53 are rounded away. *)
Definition round (n : Z) : number :=
  let k := Z.log2 (Z.abs n) - 52 in
  let r := if k <=? 0 then n else round_at k n in
  if Z.abs r <? 2 ^ 2098 then Finite r else Infinity (r <? 0).

(** [a - b] *)
Definition sub (a b : number) : number :=
  match a, b with
  | NaN, _ | _, NaN => NaN
  | Infinity s, Infinity t => if Bool.eqb s t then NaN else Infinity s
  | Infinity s, Finite _ => Infinity s
  | Finite _, Infinity t => Infinity (negb t)
  | Finite m, Finite n => round (m - n)
  end.

Definition zero : number := Finite 0.

(** The extractor's conversion, [viewport.height - y]. *)
Definition toCanonicalY (rawY h : number) : number := sub h rawY.

(** The reconstructor's conversion,
    [pageData.height - element.y - element.height]. *)
Definition fromCanonicalY (canonicalY h elemHeight : number) : number :=
  sub (sub h canonicalY) elemHeight.

(** A number of the format: rounding leaves it as it is. *)
Definition is_binary64 (x : number) : bool :=
  match x with
  | Finite n =>
      match round n with
      | Finite r => n =? r
      | _ => false
      end
  | _ => true
  end.

(** [0 < x] *)
Definition positive (x : number) : bool :=
  match x with
  | Finite n => 0 <? n
  | Infinity negative => negb negative
  | NaN => false
  end.

(** [Math.abs(x) < 2 ** p] *)
Definition below (p : Z) (x : number) : bool :=
  match x with
  | Finite n => Z.abs n <? 2 ^ (p + 1074)
  | _ => false
  end.

(** [Math.abs(a - b) <= 1e-6], on the exact difference of two finite
    numbers. *)
Definition within_tolerance (a b : number) : bool :=
  match a, b with
  | Finite m, Finite n => Z.abs (m - n) * 1000000 <=? 2 ^ 1074
  | _, _ => false
  end.

(** The number that a primitive float of the kernel holds: the
    arithmetic above can be run against the kernel's. *)
Definition of_float (x : float) : number :=
  match Prim2SF x with
  | S754_zero _ => Finite 0
  | S754_infinity s => Infinity s
  | S754_nan => NaN
  | S754_finite s m e =>
      Finite ((if s then Z.neg m else Z.pos m) * 2 ^ (e + 1074))
  end.

End Binary64.

(* ===================================================================== *)
(** * The element model                                                   *)
(* ===================================================================== *)

Local Open Scope R_scope.

(** A transform [[a, b, c, d, e, f]]: [m0 .. m5] are [transform[0]] ..
    [transform[5]]. *)
Record Matrix : Type := mkMatrix
  { m0 : R; m1 : R; m2 : R; m3 : R; m4 : R; m5 : R }.

(** The two conversions between the bottom-up frame of the document and
    the top-left-origin frame, as expressions on the numbers of the
    model: [viewport.height - y] on extraction,
    [pageData.height - y - element.height] on reconstruction.  What they
    compute in binary64 is in [Binary64]. *)
Definition toCanonicalY (rawY h : R) : R := h - rawY.

Definition fromCanonicalY (canonicalY h elemHeight : R) : R :=
  h - canonicalY - elemHeight.

(** [{ type: 'text', text, x, y, fontSize, width, height, fontName }].
    [fontSize] is kept as a JavaScript value: the reconstructor tests it
    for truthiness. *)
Record TextElement : Type := mkText
  { text : string;
    text_x : R;
    text_y : R;
    fontSize : JS.value;
    text_width : R;
    text_height : R;
    fontName : string }.

(** [{ type: 'image', x, y, width, height, src }]; [src] is [None] when
    the field is absent. *)
Record ImageElement : Type := mkImage
  { image_x : R;
    image_y : R;
    image_width : R;
    image_height : R;
    src : option string }.

(** An element by its [type] field; [Other] is any element whose [type]
    is neither ['text'] nor ['image']. *)
Inductive Element : Type :=
| Text (t : TextElement)
| Image (i : ImageElement)
| Other (type : string).

Definition is_text (e : Element) : bool :=
  match e with Text _ => true | _ => false end.

Definition is_image (e : Element) : bool :=
  match e with Image _ => true | _ => false end.

(** [{ width, height, elements }] *)
Record PageDescriptor : Type := mkPage
  { width : R;
    height : R;
    elements : list Element }.

(* ===================================================================== *)
(** * The source document, as pdfjs-dist hands it over                    *)
(* ===================================================================== *)

(** An item of [page.getTextContent()]. *)
Record TextItem : Type := mkItem
  { str : string;
    transform : Matrix;
    item_width : R;
    item_height : R;
    item_fontName : string }.

(** A raster object of [page.objs] that has [data]. *)
Record RasterImage : Type := mkRaster
  { img_width : R;
    img_height : R;
    img_data : list Byte.byte }.

(** An entry of the operator list: the code [fnArray[j]] with the
    operand [argsArray[j]] that pdfjs-dist builds for it.  The two arrays
    run in parallel, so the trace is one list.  The operand of
    [transform] is the six numbers of the matrix; the operand of an image
    operator begins with the name of its raster.  [OtherOp] is any other
    operator, with its code. *)
Inductive Op : Type :=
| Transform (m : Matrix)
| PaintImageXObject (imgName : string)
| PaintImageXObjectRepeat (imgName : string)
| PaintJpegXObject (imgName : string)
| OtherOp (code : nat).

(** [pdfjsLib.OPS]: the table of operator codes of pdfjs-dist, which is
    not part of the repository, for the properties that the code reads.
    [None] is a property that the table does not have: the operator that
    changes the transform is [transform], and there is no
    [setTransform]. *)
Module OPS.

Definition save : option nat := Some 10%nat.
Definition restore : option nat := Some 11%nat.
Definition transform : option nat := Some 12%nat.
Definition paintJpegXObject : option nat := Some 82%nat.
Definition paintImageXObject : option nat := Some 85%nat.
Definition paintImageXObjectRepeat : option nat := Some 88%nat.
Definition setTransform : option nat := None.

End OPS.

(** [fnArray[j]]: a number, the code of the operator. *)
Definition fn (op : Op) : nat :=
  match op with
  | Transform _ => 12
  | PaintJpegXObject _ => 82
  | PaintImageXObject _ => 85
  | PaintImageXObjectRepeat _ => 88
  | OtherOp code => code
  end.

(** [argsArray[j][0]] of an image operator: the name of its raster. *)
Definition first_name (op : Op) : option string :=
  match op with
  | PaintImageXObject n | PaintImageXObjectRepeat n | PaintJpegXObject n =>
      Some n
  | _ => None
  end.

(** [argsArray[j]] as a matrix: the operand of [transform]. *)
Definition operand_matrix (op : Op) : option Matrix :=
  match op with
  | Transform m => Some m
  | _ => None
  end.

(** [argsArray[j][0]] as a matrix.  No operand above begins with an
    array of six numbers: the first entry of the operand of [transform]
    is the number [a]. *)
Definition first_matrix (op : Op) : option Matrix := None.

(** A page of the parsed document.  [textContent] and [operatorList] are
    [None] when the call rejects; [objs] is [None] for a name whose
    lookup throws or gives no object with data. *)
Record PageSource : Type := mkSource
  { viewport_width : R;
    viewport_height : R;
    textContent : option (list TextItem);
    operatorList : option (list Op);
    objs : string -> option RasterImage }.

(** pdfjs-dist and canvas. *)
Class PdfJs : Type :=
  { (** [getDocument({ data }).promise] with its pages; [None] when the
        bytes are not a document *)
    getDocument : list Byte.byte -> option (list PageSource);
    (** the raster drawn on a canvas, then [canvas.toDataURL('image/png')] *)
    toDataURL : RasterImage -> string }.

(* ===================================================================== *)
(** * Extraction of a page ([LambdaApp] and [DiskApp])                    *)
(* ===================================================================== *)

Module Extractor.

(** [content.items.map(item => ...)] *)
Definition text_element (item : TextItem) : TextElement :=
  let transform := transform item in
  {| text := str item;
     text_x := m4 transform;
     text_y := m5 transform;
     fontSize :=
       JS.JNum (JS.num_or (item_height item)
                          (JS.hypot (m0 transform) (m1 transform)));
     text_width := item_width item;
     text_height := item_height item;
     fontName := item_fontName item |}.

(** [ops[k] === pdfjsLib.OPS.setTransform] *)
Definition is_set_transform (op : Op) : bool :=
  JS.same_code (fn op) OPS.setTransform.

(** [for (let k = j - 1; k >= 0; k--) if (ops[k] === OPS.setTransform)
    { ctm = args[k][0]; break; }], from [let ctm = null]. *)
Fixpoint find_ctm (ops : list Op) (j : nat) : option Matrix :=
  match j with
  | O => None
  | S k =>
      match nth_error ops k with
      | Some op =>
          if is_set_transform op then first_matrix op else find_ctm ops k
      | None => find_ctm ops k
      end
  end.

(** From [let x = 0; let y = 0; let width = img.width; let height =
    img.height;] through [if (ctm) { ... }]: the [y] is computed from the
    height before it is scaled. *)
Definition place_image (viewport_height : R) (img : RasterImage)
  (ctm : option Matrix) : ImageElement :=
  match ctm with
  | None =>
      {| image_x := 0; image_y := 0;
         image_width := img_width img; image_height := img_height img;
         src := None |}
  | Some ctm =>
      let x := m4 ctm in
      let y := viewport_height - (m5 ctm + img_height img) in
      let scaleX := JS.hypot (m0 ctm) (m1 ctm) in
      let scaleY := JS.hypot (m2 ctm) (m3 ctm) in
      {| image_x := x; image_y := y;
         image_width := img_width img * scaleX;
         image_height := img_height img * scaleY;
         src := None |}
  end.

(** [ops[j] === OPS.paintImageXObject || ops[j] ===
    OPS.paintImageXObjectRepeat || ops[j] === OPS.paintJpegXObject] *)
Definition is_image_operator (op : Op) : bool :=
  JS.same_code (fn op) OPS.paintImageXObject
  || JS.same_code (fn op) OPS.paintImageXObjectRepeat
  || JS.same_code (fn op) OPS.paintJpegXObject.

(** The name painted by [ops[j]], [args[j][0]], when it is one of the
    three image operators. *)
Definition painted_image (op : Op) : option string :=
  if is_image_operator op then first_name op else None.

Section WithPdfJs.
Context {pdfjs : PdfJs}.

(** The body of the loop over [j]: the element pushed for [ops[j]], if
    any. *)
Definition image_element (page : PageSource) (ops : list Op) (j : nat)
  : option ImageElement :=
  match nth_error ops j with
  | None => None
  | Some op =>
      match painted_image op with
      | None => None
      | Some imgName =>
          match objs page imgName with
          | None => None
          | Some img =>
              let placed :=
                place_image (viewport_height page) img (find_ctm ops j) in
              Some {| image_x := image_x placed;
                      image_y := image_y placed;
                      image_width := image_width placed;
                      image_height := image_height placed;
                      src := Some (toDataURL img) |}
          end
      end
  end.

(** [for (let j = 0; j < ops.length; j++) ...] *)
Definition image_elements (page : PageSource) (ops : list Op)
  : list Element :=
  flat_map
    (fun j => match image_element page ops j with
              | Some i => [Image i]
              | None => []
              end)
    (seq 0 (List.length ops)).

(** One turn of the loop over the pages; [None] when
    [page.getTextContent()] rejects.  A failing [getOperatorList] is
    caught: the page keeps its text elements. *)
Definition extract_page (page : PageSource) : option PageDescriptor :=
  match textContent page with
  | None => None
  | Some items =>
      let textElements := map (fun item => Text (text_element item)) items in
      let images :=
        match operatorList page with
        | Some ops => image_elements page ops
        | None => []
        end in
      Some {| width := viewport_width page;
              height := viewport_height page;
              elements := textElements ++ images |}
  end.

(** The loop over the pages; [None] as soon as a page throws. *)
Fixpoint extract_pages (pdf : list PageSource)
  : option (list PageDescriptor) :=
  match pdf with
  | [] => Some []
  | page :: rest =>
      match extract_page page with
      | None => None
      | Some pd =>
          match extract_pages rest with
          | None => None
          | Some pds => Some (pd :: pds)
          end
      end
  end.

End WithPdfJs.

End Extractor.

(* ===================================================================== *)
(** * The output document, as pdf-lib builds it                           *)
(* ===================================================================== *)

Inductive Embedder : Type := AsPng | AsJpg | AsGeneric.

(** What [embedPng], [embedJpg] or [embedImage] returned. *)
Record EmbeddedImage : Type := mkEmbedded
  { embedder : Embedder;
    content : list Byte.byte }.

(** The calls a handler makes on the output document and on the console,
    in the order it makes them. *)
Inductive Call : Type :=
| Create
| EmbedFont
| AddPage (w h : R)
| DrawText (s : string) (x y : R) (size : JS.value)
| DrawImage (image : EmbeddedImage) (x y w h : R)
| Save
| ConsoleError (message : string).

Definition Trace : Type := list Call.

(** The calls that put something on a page. *)
Definition is_drawing (c : Call) : bool :=
  match c with
  | AddPage _ _ | DrawText _ _ _ _ | DrawImage _ _ _ _ _ => true
  | _ => false
  end.

Definition drawn (t : Trace) : Trace := filter is_drawing t.

(** The calls that build the output document. *)
Definition is_construction (c : Call) : bool :=
  match c with
  | ConsoleError _ => false
  | _ => true
  end.

(** pdf-lib and [Buffer]. *)
Class PdfLib : Type :=
  { (** [Buffer.from(s, 'base64')]: it never throws *)
    base64_decode : string -> list Byte.byte;
    (** whether [embedPng], [embedJpg], [embedImage] take the bytes *)
    png_ok : list Byte.byte -> bool;
    jpg_ok : list Byte.byte -> bool;
    generic_ok : list Byte.byte -> bool;
    (** whether [drawText] takes the string at this size *)
    drawText_ok : string -> JS.value -> bool }.

(** sharp: [sharp(bytes).metadata()] gives the format found in the
    bytes, [None] when it throws. *)
Class Sharp : Type :=
  { metadata_format : list Byte.byte -> option string }.

Section PdfLibCalls.
Context {pdflib : PdfLib}.

Definition emit (c : Call) : M Trace unit := fun t => (t ++ [c], Some tt).

Definition embedPng (bytes : list Byte.byte) : option EmbeddedImage :=
  if png_ok bytes then Some (mkEmbedded AsPng bytes) else None.

Definition embedJpg (bytes : list Byte.byte) : option EmbeddedImage :=
  if jpg_ok bytes then Some (mkEmbedded AsJpg bytes) else None.

Definition embedImage (bytes : list Byte.byte) : option EmbeddedImage :=
  if generic_ok bytes then Some (mkEmbedded AsGeneric bytes) else None.

Definition drawText (s : string) (x y : R) (size : JS.value)
  : M Trace unit :=
  if drawText_ok s size then emit (DrawText s x y size) else throw.

Definition drawImage (image : EmbeddedImage) (x y w h : R) : M Trace unit :=
  emit (DrawImage image x y w h).

End PdfLibCalls.

(** A page of a request body.  [data_width] and [data_height] are [None]
    when the property is absent or holds no number; [data_elements] is
    [None] when the property is absent or holds a value that cannot be
    walked ([null], a number, a boolean, an object that is no array). *)
Record PageData : Type := mkPageData
  { data_width : option R;
    data_height : option R;
    data_elements : option (list Element) }.

(** A page descriptor, as a request gives it back. *)
Definition request_page (pd : PageDescriptor) : PageData :=
  {| data_width := Some (width pd);
     data_height := Some (height pd);
     data_elements := Some (elements pd) |}.



(** The [pages] property of a request body: an array of pages, or any
    other value ([JS.JUndefined] when the body has no such property,
    [JS.JObject] for an object that is not an array). *)
Inductive PagesField : Type :=
| PagesArray (ps : list PageData)
| PagesOther (v : JS.value).

(** A computation on the trace only appends to it: what it appends and
    what it returns do not depend on the calls made before. *)
Definition appends {A : Type} (m : M Trace A) : Prop :=
  forall t, m t = (t ++ fst (m []), snd (m [])).

(** The response of a handler run from a given state. *)
Definition respond {S A : Type} (m : M S (Response A)) (s : S)
  : S * Response A :=
  match m s with
  | (s', Some r) => (s', r)
  | (s', None) => (s', Uncaught)
  end.

(* ===================================================================== *)
(** * Reconstruction of a page ([LambdaApp] and [DiskApp])                *)
(* ===================================================================== *)

Module Reconstructor.

Local Open Scope string_scope.
Local Open Scope js_scope.

(** The comparator of [sortedElements]. *)
Definition paint_order (a b : Element) : Z :=
  if is_image a && is_text b then (-1)%Z
  else if is_text a && is_image b then 1%Z
  else 0%Z.

(** The paint order that the comparator is written for: the images,
    then the texts, each class in its input order. *)
Definition images_then_texts (l : list Element) : list Element :=
  (filter is_image l ++ filter is_text l)%list.


(** [[...pageData.elements].sort((a, b) => ...)] *)
Definition sortedElements (pageData : PageDescriptor) : list Element :=
  JS.sort paint_order (elements pageData).

Section WithPdfLib.
Context {pdflib : PdfLib}.

(** From [Buffer.from(...)] to the [image] that is drawn: the embedder is
    chosen by what the [src] string contains. *)
Definition embed_image (src : string) : option EmbeddedImage :=
  let imageBytes := base64_decode (JS.strip_data_uri src) in
  if JS.includes "image/png" src then embedPng imageBytes
  else if JS.includes "image/jpeg" src then embedJpg imageBytes
  else embedPng imageBytes.

(** The size a text element is drawn at: [element.fontSize || 12]. *)
Definition text_size (t : TextElement) : JS.value :=
  JS.or (fontSize t) (JS.JNum 12).

(** Whether pdf-lib takes the [drawText] of an element; an element that
    is no text makes no such call. *)
Definition text_drawable (e : Element) : bool :=
  match e with
  | Text t => drawText_ok (text t) (text_size t)
  | _ => true
  end.

(** The body of [for (const element of sortedElements)]. *)
Definition draw_element (pageData : PageDescriptor) (element : Element)
  : M Trace unit :=
  match element with
  | Text t =>
      drawText (text t) (text_x t) (height pageData - text_y t) (text_size t)
  | Image i =>
      match src i with
      | None => ret tt
      | Some s =>
          if String.eqb s "" then ret tt
          else
            try_catch
              (image <- lift (embed_image s) ;;
               drawImage image
                 (image_x i)
                 (height pageData - image_y i - image_height i)
                 (image_width i)
                 (image_height i))
              (emit (ConsoleError "Error embedding image:"))
      end
  | Other _ => ret tt
  end.

(** The body of [for (const pageData of pages)], for a page that has
    its three properties. *)
Definition draw_page (pageData : PageDescriptor) : M Trace unit :=
  emit (AddPage (width pageData) (height pageData)) ;;
  for_of (sortedElements pageData) (draw_element pageData).

(** The body of [for (const pageData of pages)]: [addPage] throws when
    [pageData.width] or [pageData.height] is no number, and the spread
    [[...pageData.elements]] throws when there is nothing to walk. *)
Definition draw_page_data (pageData : PageData) : M Trace unit :=
  match data_width pageData, data_height pageData with
  | Some w, Some h =>
      match data_elements pageData with
      | Some elements => draw_page (mkPage w h elements)
      | None => emit (AddPage w h) ;; throw
      end
  | _, _ => throw
  end.

(** What an element puts on a page of height [h]: the one call that
    draws it, or nothing. *)
Definition placed (h : R) (e : Element) : list Call :=
  match e with
  | Text t => [DrawText (text t) (text_x t) (h - text_y t) (text_size t)]
  | Image i =>
      match src i with
      | None => []
      | Some s =>
          if String.eqb s "" then []
          else match embed_image s with
               | Some image =>
                   [DrawImage image (image_x i) (h - image_y i - image_height i)
                              (image_width i) (image_height i)]
               | None => []
               end
      end
  | Other _ => []
  end.


(** From [PDFDocument.create()] to [pdfDoc.save()]. *)
Definition build (pages : list PageData) : M Trace unit :=
  emit Create ;;
  emit EmbedFont ;;
  for_of pages draw_page_data ;;
  emit Save.

(** The handler from the test on [pages] on, inside its [try]. *)
Definition reconstruct (pages : PagesField) : M Trace (Response unit) :=
  try_catch
    (match pages with
     | PagesOther _ =>
         ret (Failed 400 "Invalid JSON format. Expected { pages: [...] }")
     | PagesArray ps =>
         build ps ;;
         ret (Ok200 tt)
     end)
    (emit (ConsoleError "Error creating PDF:") ;;
     ret (Failed 500 "Failed to create PDF")).

End WithPdfLib.

End Reconstructor.

(* ===================================================================== *)
(** * The file system of the upload                                       *)
(* ===================================================================== *)

Definition FS : Type := string -> option (list Byte.byte).

Definition remove_file (p : string) (fs : FS) : FS :=
  fun q => if String.eqb q p then None else fs q.

(** [fs.readFileSync(p)]: throws when there is no such file. *)
Definition readFileSync (p : string) : M FS (list Byte.byte) :=
  fun fs => (fs, fs p).

(** [fs.existsSync(p)] *)
Definition existsSync (p : string) : M FS bool :=
  fun fs => (fs, Some (match fs p with Some _ => true | None => false end)).

(** [fs.unlinkSync(p)]: throws when there is no such file. *)
Definition unlinkSync (p : string) : M FS unit :=
  fun fs =>
    match fs p with
    | Some _ => (remove_file p fs, Some tt)
    | None => (fs, None)
    end.

(** A file system that holds one file. *)
Definition single_file (p : string) (data : list Byte.byte) : FS :=
  fun q => if String.eqb q p then Some data else None.

(* ===================================================================== *)
(** * The variant with memory storage                                     *)
(* ===================================================================== *)

Module LambdaApp.

Local Open Scope string_scope.
Local Open Scope js_scope.

(** What [JSON.parse] makes of a body that reached the handler as a
    [Buffer]: a syntax error, [null], or a value with its [pages]
    property. *)
Inductive Parsed : Type :=
| SyntaxError
| ParsedNull
| ParsedValue (pages : PagesField).

(** [req.body]: the object left by the JSON middleware, with its [pages]
    property, or a [Buffer]. *)
Inductive Body : Type :=
| BodyObject (pages : PagesField)
| BodyBuffer (parsed : Parsed).

Section Handlers.
Context {pdfjs : PdfJs} {pdflib : PdfLib}.

(** [app.post('/pdfToJson')]: [file] is [req.file.buffer], [None] when no
    file was uploaded.  Nothing is staged on disk. *)
Definition pdfToJson (file : option (list Byte.byte))
  : Response (list PageDescriptor) :=
  match file with
  | None => Failed 400 "No file uploaded"
  | Some data =>
      match getDocument data with
      | None => Failed 500 "Failed to process PDF"
      | Some pdf =>
          match Extractor.extract_pages pdf with
          | None => Failed 500 "Failed to process PDF"
          | Some pages => Ok200 pages
          end
      end
  end.

(** [app.post('/jsonToPdf')] *)
Definition jsonToPdf (body : Body) : Trace * Response unit :=
  respond
    (match body with
     | BodyObject pages => Reconstructor.reconstruct pages
     | BodyBuffer (ParsedValue pages) => Reconstructor.reconstruct pages
     | BodyBuffer _ =>
         emit (ConsoleError "Error creating PDF:") ;;
         ret (Failed 500 "Failed to create PDF")
     end)
    [].

End Handlers.

End LambdaApp.

(* ===================================================================== *)
(** * The variant with disk storage                                       *)
(* ===================================================================== *)

Module DiskApp.

Local Open Scope string_scope.
Local Open Scope js_scope.

Section Handlers.
Context {pdfjs : PdfJs} {pdflib : PdfLib}.

(** [app.post('/pdfToJson')]: [file] is [req.file.path], the file multer
    wrote under /tmp, [None] when no file was uploaded. *)
Definition pdfToJson (file : option string) (fs : FS)
  : FS * Response (list PageDescriptor) :=
  respond
    (match file with
     | None => ret (Failed 400 "No file uploaded")
     | Some pdfPath =>
         try_catch
           (data <- readFileSync pdfPath ;;
            pdf <- lift (getDocument data) ;;
            pages <- lift (Extractor.extract_pages pdf) ;;
            unlinkSync pdfPath ;;
            ret (Ok200 pages))
           (present <- existsSync pdfPath ;;
            (if present : bool then unlinkSync pdfPath else ret tt) ;;
            ret (Failed 500 "Failed to process PDF"))
     end)
    fs.

(** [app.post('/jsonToPdf')]: [pages] is the [pages] property of
    [req.body]. *)
Definition jsonToPdf (pages : PagesField) : Trace * Response unit :=
  respond (Reconstructor.reconstruct pages) [].

End Handlers.

End DiskApp.

(* ===================================================================== *)
(** * src/app.js                                                          *)
(* ===================================================================== *)

Module AppJs.

Local Open Scope string_scope.
Local Open Scope js_scope.

(** [content.items.map(item => ...)] *)
Definition text_element (item : TextItem) : TextElement :=
  let transform := transform item in
  {| text := str item;
     text_x := m4 transform;
     text_y := m5 transform;
     fontSize := JS.JNum (JS.hypot (m0 transform) (m1 transform));
     text_width := item_width item;
     text_height := item_height item;
     fontName := item_fontName item |}.

(** One turn of the loop over the pages. *)
Definition extract_page (page : PageSource) : option PageDescriptor :=
  match textContent page with
  | None => None
  | Some items =>
      Some {| width := viewport_width page;
              height := viewport_height page;
              elements := map (fun item => Text (text_element item)) items |}
  end.

Fixpoint extract_pages (pdf : list PageSource)
  : option (list PageDescriptor) :=
  match pdf with
  | [] => Some []
  | page :: rest =>
      match extract_page page with
      | None => None
      | Some pd =>
          match extract_pages rest with
          | None => None
          | Some pds => Some (pd :: pds)
          end
      end
  end.

Section Handlers.
Context {pdfjs : PdfJs} {pdflib : PdfLib}.

(** [app.post('/pdfToJson')]: [file] is [req.file.path], [None] when no
    file was uploaded ([req.file.path] then throws).  There is no [try]. *)
Definition pdfToJson (file : option string) (fs : FS)
  : FS * Response (list PageDescriptor) :=
  respond
    (pdfPath <- lift file ;;
     data <- readFileSync pdfPath ;;
     pdf <- lift (getDocument data) ;;
     pages <- lift (extract_pages pdf) ;;
     unlinkSync pdfPath ;;
     ret (Ok200 pages))
    fs.

(** The body of [for (const element of pageData.elements)]. *)
Definition draw_element (element : Element) : M Trace unit :=
  match element with
  | Text t =>
      drawText (text t) (text_x t) (text_y t)
               (JS.or (fontSize t) (JS.JNum 12))
  | Image i =>
      match src i with
      | None => ret tt
      | Some s =>
          if String.eqb s "" then ret tt
          else
            image <- lift (embedPng (base64_decode (JS.strip_data_uri s))) ;;
            drawImage image (image_x i) (image_y i)
                      (image_width i) (image_height i)
      end
  | Other _ => ret tt
  end.

(** The body of [for (const pageData of pages)], for a page that has
    its three properties. *)
Definition draw_page (pageData : PageDescriptor) : M Trace unit :=
  emit (AddPage (width pageData) (height pageData)) ;;
  for_of (elements pageData) draw_element.

(** The body of [for (const pageData of pages)]: [addPage] throws when
    [pageData.width] or [pageData.height] is no number, and
    [for (const element of pageData.elements)] throws when there is
    nothing to walk. *)
Definition draw_page_data (pageData : PageData) : M Trace unit :=
  match data_width pageData, data_height pageData with
  | Some w, Some h =>
      match data_elements pageData with
      | Some elements => draw_page (mkPage w h elements)
      | None => emit (AddPage w h) ;; throw
      end
  | _, _ => throw
  end.

(** [for (const pageData of pages)]: an array is walked; the empty string
    is iterable and has nothing to walk; a character of a longer string
    has no [width], [height] or [elements], so its turn throws; any other
    value is not iterable. *)
Definition for_pages (pages : PagesField) : M Trace unit :=
  match pages with
  | PagesArray ps => for_of ps draw_page_data
  | PagesOther (JS.JStr "") => ret tt
  | PagesOther _ => throw
  end.

(** [app.post('/jsonToPdf')]: [pages] is the [pages] property of
    [req.body].  There is no test on it and no [try]. *)
Definition jsonToPdf (pages : PagesField) : Trace * Response unit :=
  respond
    (emit Create ;;
     emit EmbedFont ;;
     for_pages pages ;;
     emit Save ;;
     ret (Ok200 tt))
    [].

End Handlers.

End AppJs.

(* ===================================================================== *)
(** * The variant with the /api routes                                    *)
(* ===================================================================== *)

Module ApiApp.

Local Open Scope string_scope.

(** The text element pushed by [extractPageElements]; it has no
    [fontSize]. *)
Definition text_element (viewport_height : R) (item : TextItem)
  : TextElement :=
  {| text := str item;
     text_x := m4 (transform item);
     text_y := viewport_height - m5 (transform item);
     fontSize := JS.JUndefined;
     text_width := item_width item;
     text_height := item_height item;
     fontName := item_fontName item |}.

Section WithSharp.
Context {pdflib : PdfLib} {sharp : Sharp}.

(** From [Buffer.from(element.data, 'base64')] to the [image] that is
    drawn: the inner [try] covers the embedding too, so a refused
    embedding falls to [embedImage] as a throwing [metadata] does. *)
Definition embed_image (data : string) : option EmbeddedImage :=
  let imageBytes := base64_decode data in
  match metadata_format imageBytes with
  | None => embedImage imageBytes
  | Some format =>
      let attempt :=
        if String.eqb format "jpeg" then embedJpg imageBytes
        else if String.eqb format "png" then embedPng imageBytes
        else embedImage imageBytes in
      match attempt with
      | Some image => Some image
      | None => embedImage imageBytes
      end
  end.

End WithSharp.

End ApiApp.

(* ===================================================================== *)
(** * Sample collaborators                                                *)
(* ===================================================================== *)

(** Collaborators that recognise the formats by their first bytes, to run
    the handlers on concrete requests. *)
Module Sample.

Local Open Scope string_scope.

(** The value of a character of the base64 alphabet. *)
Definition b64_value (c : ascii) : option N :=
  let n := N_of_ascii c in
  if ((65 <=? n) && (n <=? 90))%N then Some (n - 65)%N
  else if ((97 <=? n) && (n <=? 122))%N then Some (n - 71)%N
  else if ((48 <=? n) && (n <=? 57))%N then Some (n + 4)%N
  else if (n =? 43)%N then Some 62%N
  else if (n =? 47)%N then Some 63%N
  else None.

Fixpoint b64_values (s : string) : list N :=
  match s with
  | EmptyString => []
  | String c rest =>
      match b64_value c with
      | Some v => v :: b64_values rest
      | None => b64_values rest
      end
  end.

Definition to_byte (n : N) : Byte.byte :=
  match Byte.of_N (n mod 256) with
  | Some b => b
  | None => Byte.x00
  end.

Fixpoint b64_bytes (vs : list N) : list Byte.byte :=
  match vs with
  | a :: b :: c :: d :: rest =>
      to_byte (a * 4 + b / 16) :: to_byte (b * 16 + c / 4)
        :: to_byte (c * 64 + d) :: b64_bytes rest
  | [a; b; c] => [to_byte (a * 4 + b / 16); to_byte (b * 16 + c / 4)]
  | [a; b] => [to_byte (a * 4 + b / 16)]
  | _ => []
  end.

Definition decode (s : string) : list Byte.byte := b64_bytes (b64_values s).

Definition is_png (bytes : list Byte.byte) : bool :=
  match bytes with
  | Byte.x89 :: Byte.x50 :: Byte.x4e :: Byte.x47 :: _ => true
  | _ => false
  end.

Definition is_jpeg (bytes : list Byte.byte) : bool :=
  match bytes with
  | Byte.xff :: Byte.xd8 :: _ => true
  | _ => false
  end.

Definition is_pdf (bytes : list Byte.byte) : bool :=
  match bytes with
  | Byte.x25 :: Byte.x50 :: Byte.x44 :: Byte.x46 :: _ => true
  | _ => false
  end.

Definition pdflib : PdfLib :=
  {| base64_decode := decode;
     png_ok := is_png;
     jpg_ok := is_jpeg;
     generic_ok := fun bytes => is_png bytes || is_jpeg bytes;
     drawText_ok := fun _ _ => true |}.

Definition sharp : Sharp :=
  {| metadata_format := fun bytes =>
       if is_png bytes then Some "png"
       else if is_jpeg bytes then Some "jpeg"
       else None |}.

(** The first bytes of a PNG file and of a JPEG file, in base64. *)
Definition png_payload : string := "iVBORw0KGgo=".
Definition jpeg_payload : string := "/9j/4AAQSkZJRg==".

(** A 2 x 3 raster. *)
Definition raster : RasterImage :=
  {| img_width := 2; img_height := 3; img_data := [] |}.

(** A text run at [(72, 700)] with a 12 point font. *)
Definition item : TextItem :=
  {| str := "Hello";
     transform := mkMatrix 12 0 0 12 72 700;
     item_width := 30;
     item_height := 12;
     item_fontName := "g_d0_f1" |}.

(** A run that reports no height. *)
Definition flat_item : TextItem :=
  {| str := " ";
     transform := mkMatrix 12 0 0 12 102 700;
     item_width := 3;
     item_height := 0;
     item_fontName := "g_d0_f1" |}.

(** The operator list of [q 2 0 0 2 10 20 cm /Im1 Do Q] after a first
    transform: it paints one image, under two transforms. *)
Definition ops : list Op :=
  [Transform (mkMatrix 1 0 0 1 5 6);
   OtherOp 10;
   Transform (mkMatrix 2 0 0 2 10 20);
   PaintImageXObject "img_p0_1";
   OtherOp 11].

(** A US Letter page with one text run and one image. *)
Definition page : PageSource :=
  {| viewport_width := 612;
     viewport_height := 792;
     textContent := Some [item];
     operatorList := Some ops;
     objs := fun name => if String.eqb name "img_p0_1" then Some raster
                         else None |}.

Definition pdfjs : PdfJs :=
  {| getDocument := fun bytes => if is_pdf bytes then Some [page] else None;
     toDataURL := fun _ => "data:image/png;base64," ++ png_payload |}.

(** [%PDF], and bytes that are no document. *)
Definition pdf_bytes : list Byte.byte :=
  [Byte.x25; Byte.x50; Byte.x44; Byte.x46].
Definition junk_bytes : list Byte.byte := [Byte.x00].

Definition text_A : Element :=
  Text (mkText "A" 72 92 (JS.JNum 12) 30 12 "Helvetica").
Definition text_C : Element :=
  Text (mkText "C" 72 120 JS.JUndefined 30 12 "Helvetica").
Definition image_B : Element :=
  Image (mkImage 10 20 4 6 (Some ("data:image/png;base64," ++ png_payload))).

(** An image element whose bytes are no image. *)
Definition corrupt : ImageElement :=
  mkImage 10 20 4 6 (Some "data:image/png;base64,AAAA").

End Sample.

(* ===================================================================== *)
(** * The /api routes in full                                             *)
(* ===================================================================== *)

Module ApiRoutes.

Local Open Scope string_scope.
Local Open Scope js_scope.

(** An item of [page.getTextContent()] with the [color] the extractor
    looks for; [None] when the item has none. *)
Record ColoredItem : Type := mkColored
  { run : TextItem;
    item_color : option (list JS.value) }.

(** A page of the parsed document; [api_items] and [api_ops] are [None]
    when the call rejects; [api_objs] is [None] for a name whose lookup
    throws, whose object has no data or whose raster cannot be drawn on
    the canvas. *)
Record Page : Type := mkApiPage
  { api_width : R;
    api_height : R;
    api_rotation : R;
    api_items : option (list ColoredItem);
    api_ops : option (list Op);
    api_objs : string -> option RasterImage }.

(** [{ type: 'text', text, x, y, width, height, font, transform, color }];
    [te_color] is [None] when a request gives no [color]. *)
Record TextEl : Type := mkTextEl
  { te_text : string;
    te_x : R;
    te_y : R;
    te_width : R;
    te_height : R;
    te_font : string;
    te_transform : Matrix;
    te_color : option (list JS.value) }.

(** [{ type: 'image', data, x, y, width, height, transform }]; [ie_data]
    is [None] when the field is absent. *)
Record ImageEl : Type := mkImageEl
  { ie_data : option string;
    ie_x : R;
    ie_y : R;
    ie_width : R;
    ie_height : R;
    ie_transform : Matrix }.

Inductive El : Type :=
| TextOf (t : TextEl)
| ImageOf (i : ImageEl)
| OtherOf (type : string).

(** [{ pageNumber, width, height, rotation, elements }]; a field that a
    request leaves out is [None]. *)
Record PageInfo : Type := mkPageInfo
  { pageNumber : nat;
    info_width : option R;
    info_height : option R;
    info_rotation : option R;
    info_elements : option (list El) }.

(** [let currentTransform = [1, 0, 0, 1, 0, 0]] *)
Definition identity : Matrix := mkMatrix 1 0 0 1 0 0.

(** [s.split(',')[1]]: what stands between the first comma and the next
    one, [None] when [s] has no comma. *)
Fixpoint up_to_comma (s : string) : string :=
  match s with
  | EmptyString => EmptyString
  | String c rest =>
      if Ascii.eqb c ","%char then EmptyString
      else String c (up_to_comma rest)
  end.

Fixpoint split_comma_1 (s : string) : option string :=
  match s with
  | EmptyString => None
  | String c rest =>
      if Ascii.eqb c ","%char then Some (up_to_comma rest)
      else split_comma_1 rest
  end.

(** The text element pushed for an item. *)
Definition text_el (viewport_height : R) (item : ColoredItem) : TextEl :=
  {| te_text := str (run item);
     te_x := m4 (transform (run item));
     te_y := viewport_height - m5 (transform (run item));
     te_width := item_width (run item);
     te_height := item_height (run item);
     te_font := item_fontName (run item);
     te_transform := transform (run item);
     te_color :=
       Some (match item_color item with
             | Some color => color
             | None => [JS.JNum 0; JS.JNum 0; JS.JNum 0]
             end) |}.

(** [if (fn === 'transform') currentTransform = args]: the transform
    after the operator was looked at; [None] is an operand that is no
    matrix.  [fn] is a number. *)
Definition track (currentTransform : option Matrix) (op : Op)
  : option Matrix :=
  if JS.number_is_string (fn op) "transform" then operand_matrix op
  else currentTransform.

(** [new ImageData(...)]: the file declares no [ImageData] (of canvas it
    takes [createCanvas] and [loadImage]) and Node has no such global, so
    the expression throws a ReferenceError. *)
Definition new_ImageData (img : RasterImage) : option RasterImage := None.

Section WithPdfJs.
Context {pdfjs : PdfJs}.

(** The body of [if (imgObj && imgObj.data)], inside the [try]: the image
    element that is pushed, if any.  A throw is caught and logged, and
    nothing is pushed: that of [new ImageData], and that of
    [currentTransform[4]] when [currentTransform] is [null]. *)
Definition image_el (viewport_height : R) (img : RasterImage)
  (currentTransform : option Matrix) : option ImageEl :=
  match new_ImageData img with
  | None => None
  | Some imageData =>
      match currentTransform with
      | None => None
      | Some ct =>
          Some {| ie_data := split_comma_1 (toDataURL imageData);
                  ie_x := m4 ct;
                  ie_y := viewport_height - m5 ct - img_height img;
                  ie_width := img_width img;
                  ie_height := img_height img;
                  ie_transform := ct |}
      end
  end.

(** The loop over the operator list, from a given [currentTransform];
    [fn === 'paintImageXObject'] compares a number with a string. *)
Fixpoint image_els (viewport_height : R)
  (objs : string -> option RasterImage)
  (currentTransform : option Matrix) (ops : list Op) : list El :=
  match ops with
  | [] => []
  | op :: rest =>
      let current := track currentTransform op in
      let pushed :=
        if JS.number_is_string (fn op) "paintImageXObject" then
          match first_name op with
          | Some imgName =>
              match objs imgName with
              | Some img =>
                  match image_el viewport_height img current with
                  | Some i => [ImageOf i]
                  | None => []
                  end
              | None => []
              end
          | None => []
          end
        else [] in
      (pushed ++ image_els viewport_height objs current rest)%list
  end.

(** [extractPageElements(page)]; [None] when [getTextContent] or
    [getOperatorList] rejects: neither is inside a [try]. *)
Definition extractPageElements (page : Page) : option (list El) :=
  match api_items page, api_ops page with
  | Some items, Some ops =>
      Some (map (fun item => TextOf (text_el (api_height page) item)) items
            ++ image_els (api_height page) (api_objs page)
                 (Some identity) ops)%list
  | _, _ => None
  end.

(** The loop over the pages, numbered from [i]. *)
Fixpoint extract_pages (i : nat) (pages : list Page)
  : option (list PageInfo) :=
  match pages with
  | [] => Some []
  | page :: rest =>
      match extractPageElements page with
      | None => None
      | Some elements =>
          match extract_pages (S i) rest with
          | None => None
          | Some infos =>
              Some ({| pageNumber := i;
                       info_width := Some (api_width page);
                       info_height := Some (api_height page);
                       info_rotation := Some (api_rotation page);
                       info_elements := Some elements |} :: infos)
          end
      end
  end.

End WithPdfJs.

(** [(await pdfDoc.getMetadata()).info]; the fields that are not set are
    [JS.JUndefined]. *)
Record Info : Type := mkInfo
  { Title : JS.value;
    Author : JS.value;
    Subject : JS.value;
    Creator : JS.value;
    Keywords : JS.value;
    Producer : JS.value;
    CreationDate : JS.value;
    ModDate : JS.value }.

(** The parsed document: its pages, and what [getMetadata()] gives:
    [None] when it rejects, [Some None] when it has no [info]. *)
Record Document : Type := mkDocument
  { doc_pages : list Page;
    doc_metadata : option (option Info) }.

Class ApiPdfJs : Type :=
  { (** [getDocument(uint8Array).promise]; [None] when it rejects *)
    api_getDocument : list Byte.byte -> option Document }.

(** The [metadata] of the answer. *)
Record Metadata : Type := mkMetadata
  { title : JS.value;
    author : JS.value;
    subject : JS.value;
    creator : JS.value;
    keywords : JS.value;
    producer : JS.value;
    creationDate : JS.value;
    modificationDate : JS.value;
    pageCount : nat }.

(** [req.file] as multer's disk storage leaves it. *)
Record UploadedFile : Type := mkUpload
  { path : string;
    originalname : string;
    size : nat;
    mimetype : string }.

(** The answer of /api/pdf-to-json. *)
Record Result : Type := mkResult
  { metadata : Metadata;
    pages : list PageInfo;
    fileInfo : string * nat * string }.

(** [info?.Title || null] and its like. *)
Definition field_or_null (info : option Info) (field : Info -> JS.value)
  : JS.value :=
  match info with
  | Some i => JS.or (field i) JS.JNull
  | None => JS.JNull
  end.

Definition metadata_of (info : option Info) (numPages : nat) : Metadata :=
  {| title := field_or_null info Title;
     author := field_or_null info Author;
     subject := field_or_null info Subject;
     creator := field_or_null info Creator;
     keywords := field_or_null info Keywords;
     producer := field_or_null info Producer;
     creationDate := field_or_null info CreationDate;
     modificationDate := field_or_null info ModDate;
     pageCount := numPages |}.

Section PdfToJson.
Context {pdfjs : PdfJs} {apipdfjs : ApiPdfJs}.

(** [app.post('/api/pdf-to-json')]: [file] is [req.file], [None] when no
    file was uploaded. *)
Definition pdf_to_json (file : option UploadedFile) (fs : FS)
  : FS * Response Result :=
  respond
    (try_catch
       (match file with
        | None => ret (Failed 400 "No PDF file uploaded")
        | Some f =>
            let filePath := path f in
            fileBuffer <- readFileSync filePath ;;
            pdfDoc <- lift (api_getDocument fileBuffer) ;;
            info <- lift (doc_metadata pdfDoc) ;;
            pages <- lift (extract_pages 1 (doc_pages pdfDoc)) ;;
            unlinkSync filePath ;;
            ret (Ok200
                   {| metadata :=
                        metadata_of info (List.length (doc_pages pdfDoc));
                      pages := pages;
                      fileInfo := (originalname f, size f, mimetype f) |})
        end)
       (match file with
        | Some f =>
            present <- existsSync (path f) ;;
            (if present : bool then unlinkSync (path f) else ret tt)
        | None => ret tt
        end ;;
        ret (Failed 500 "Error processing PDF")))
    fs.

End PdfToJson.

(** The document properties that /api/json-to-pdf sets. *)
Inductive MetaField : Type :=
| FTitle | FAuthor | FSubject | FCreator | FKeywords | FProducer.

(** The calls /api/json-to-pdf makes on the output document and on the
    console, in the order it makes them. *)
Inductive ApiCall : Type :=
| ACreate
| ARegisterFontkit
| ASet (field : MetaField) (v : JS.value)
| AAddPage (w h : R)
| ASetRotation (r : R)
| ADrawText (s : string) (x y size : R) (red green blue : JS.value)
| ADrawImage (image : EmbeddedImage) (x y w h : R)
| ASave
| AConsoleError (message : string).

(** The calls that put something on a page. *)
Definition api_is_drawing (c : ApiCall) : bool :=
  match c with
  | AAddPage _ _ | ADrawText _ _ _ _ _ _ _ | ADrawImage _ _ _ _ _ => true
  | _ => false
  end.

Definition api_is_draw_text (c : ApiCall) : bool :=
  match c with
  | ADrawText _ _ _ _ _ _ _ => true
  | _ => false
  end.




(** What pdf-lib takes beyond [PdfLib]: the channels of [rgb], the
    argument of [setRotation] and the value of a document property. *)
Class ApiPdfLib : Type :=
  { rgb_ok : JS.value -> JS.value -> JS.value -> bool;
    setRotation_ok : R -> bool;
    set_ok : MetaField -> JS.value -> bool }.

(** The [metadata] property of a request body: an object with the fields
    of [Metadata], or any other value. *)
Inductive MetadataField : Type :=
| MetaObject (m : Metadata)
| MetaOther (v : JS.value).

(** The [pages] property of a request body. *)
Inductive PagesField : Type :=
| PagesArr (ps : list PageInfo)
| PagesOth (v : JS.value).

Definition metadata_truthy (metadata : MetadataField) : bool :=
  match metadata with
  | MetaObject _ => true
  | MetaOther v => JS.truthy v
  end.

Definition pages_truthy (pages : PagesField) : bool :=
  match pages with
  | PagesArr _ => true
  | PagesOth v => JS.truthy v
  end.

(** [pageInfo.width || 612] and [pageInfo.height || 792] *)
Definition dimension (d : option R) (default : R) : R :=
  match d with
  | Some r => JS.num_or r default
  | None => default
  end.

(** What a character of a string gives as a page: it has none of the
    fields. *)
Definition blank_page : PageInfo := mkPageInfo 0 None None None None.

(** A continuation byte of UTF-8, [10xxxxxx]. *)
Definition is_continuation (c : ascii) : bool :=
  let n := nat_of_ascii c in ((128 <=? n) && (n <? 192))%nat.

(** What [for ... of] walks in a string: its code points.  A string is
    held as its UTF-8 bytes, in which a code point begins at every byte
    that is no continuation byte; each is given by that first byte. *)
Fixpoint characters (s : string) : list ascii :=
  match s with
  | EmptyString => []
  | String c rest =>
      if is_continuation c then characters rest else c :: characters rest
  end.

Section JsonToPdf.
Context {pdflib : PdfLib} {sharp : Sharp} {apipdflib : ApiPdfLib}.

Definition api_emit (c : ApiCall) : M (list ApiCall) unit :=
  fun t => ((t ++ [c])%list, Some tt).

(** [element.color[k] || 0] *)
Definition channel (color : list JS.value) (k : nat) : JS.value :=
  JS.or (nth k color JS.JUndefined) (JS.JNum 0).

(** The body of [for (const element of pageInfo.elements)]: all of it is
    inside the [try]. *)
Definition draw_el (element : El) : M (list ApiCall) unit :=
  try_catch
    (match element with
     | TextOf t =>
         color <- lift (te_color t) ;;
         if rgb_ok (channel color 0) (channel color 1) (channel color 2)
            && drawText_ok (te_text t) (JS.JNum (te_height t))
         then api_emit (ADrawText (te_text t) (te_x t) (te_y t) (te_height t)
                          (channel color 0) (channel color 1)
                          (channel color 2))
         else throw
     | ImageOf i =>
         match ie_data i with
         | None => ret tt
         | Some data =>
             if String.eqb data "" then ret tt
             else
               image <- lift (ApiApp.embed_image data) ;;
               api_emit (ADrawImage image (ie_x i) (ie_y i)
                           (ie_width i) (ie_height i))
         end
     | OtherOf _ => ret tt
     end)
    (api_emit (AConsoleError "Error reconstructing element:")).

(** The body of [for (const pageInfo of pages)]. *)
Definition draw_page_info (pageInfo : PageInfo) : M (list ApiCall) unit :=
  api_emit (AAddPage (dimension (info_width pageInfo) 612)
                     (dimension (info_height pageInfo) 792)) ;;
  match info_rotation pageInfo with
  | Some r =>
      if Req_dec_T r 0 then ret tt
      else if setRotation_ok r then api_emit (ASetRotation r)
      else throw
  | None => ret tt
  end ;;
  match info_elements pageInfo with
  | Some elements => for_of elements draw_el
  | None => ret tt
  end.

(** [if (metadata.title) pdfDoc.setTitle(metadata.title)] and its like. *)
Definition set_field (field : MetaField) (v : JS.value)
  : M (list ApiCall) unit :=
  if JS.truthy v
  then if set_ok field v then api_emit (ASet field v) else throw
  else ret tt.

(** Whether pdf-lib takes the properties that a request sets. *)
Definition field_accepted (field : MetaField) (v : JS.value) : bool :=
  negb (JS.truthy v) || set_ok field v.

Definition metadata_accepted (metadata : MetadataField) : bool :=
  match metadata with
  | MetaObject m =>
      field_accepted FTitle (title m) && field_accepted FAuthor (author m)
      && field_accepted FSubject (subject m)
      && field_accepted FCreator (creator m)
      && field_accepted FKeywords (keywords m)
      && field_accepted FProducer (producer m)
  | MetaOther _ => true
  end.

Definition set_metadata (metadata : MetadataField) : M (list ApiCall) unit :=
  match metadata with
  | MetaObject m =>
      set_field FTitle (title m) ;;
      set_field FAuthor (author m) ;;
      set_field FSubject (subject m) ;;
      set_field FCreator (creator m) ;;
      set_field FKeywords (keywords m) ;;
      set_field FProducer (producer m)
  | MetaOther _ => ret tt
  end.

(** [for (const pageInfo of pages)]: an array is walked; a string gives
    its code points, each a page with no field; any other value is not
    iterable. *)
Definition for_pages (pages : PagesField) : M (list ApiCall) unit :=
  match pages with
  | PagesArr ps => for_of ps draw_page_info
  | PagesOth (JS.JStr s) =>
      for_of (characters s) (fun _ => draw_page_info blank_page)
  | PagesOth _ => throw
  end.

(** [app.post('/api/json-to-pdf')] *)
Definition json_to_pdf (metadata : MetadataField) (pages : PagesField)
  : list ApiCall * Response unit :=
  respond
    (try_catch
       (if negb (metadata_truthy metadata) || negb (pages_truthy pages)
        then ret (Failed 400
                    "Invalid JSON structure. Metadata and pages are required.")
        else
          api_emit ACreate ;;
          api_emit ARegisterFontkit ;;
          set_metadata metadata ;;
          for_pages pages ;;
          api_emit ASave ;;
          ret (Ok200 tt))
       (api_emit (AConsoleError "Error generating PDF:") ;;
        ret (Failed 500 "Error generating PDF")))
    [].

End JsonToPdf.

End ApiRoutes.

(* ===================================================================== *)
(** * Vocabulary for whole requests                                       *)
(* ===================================================================== *)


Definition is_draw_text (c : Call) : bool :=
  match c with
  | DrawText _ _ _ _ => true
  | _ => false
  end.



Section Acceptance.
Context {pdflib : PdfLib}.


(** Whether src/app.js gets an element on its page: pdf-lib takes the
    text, or takes the bytes of the image as PNG; an element that makes
    no call on pdf-lib is fine. *)
Definition appjs_paintable (e : Element) : bool :=
  match e with
  | Text t => drawText_ok (text t) (JS.or (fontSize t) (JS.JNum 12))
  | Image i =>
      match src i with
      | None => true
      | Some s =>
          if String.eqb s "" then true
          else png_ok (base64_decode (JS.strip_data_uri s))
      end
  | Other _ => true
  end.



End Acceptance.

(** Whether every character of a string passes a test. *)
Fixpoint all_chars (f : ascii -> bool) (s : string) : bool :=
  match s with
  | EmptyString => true
  | String c rest => f c && all_chars f rest
  end.

Definition not_comma (c : ascii) : bool := negb (Ascii.eqb c ","%char).

(** Whether the raster of an image-paint operator is found. *)
Definition resolvable (page : PageSource) (op : Op) : bool :=
  match Extractor.painted_image op with
  | Some imgName =>
      match objs page imgName with
      | Some _ => true
      | None => false
      end
  | None => false
  end.

(* ===================================================================== *)
(** * Sample collaborators of the /api routes                             *)
(* ===================================================================== *)

Module ApiSample.

Local Open Scope string_scope.

Definition apipdflib : ApiRoutes.ApiPdfLib :=
  {| ApiRoutes.rgb_ok := fun _ _ _ => true;
     ApiRoutes.setRotation_ok := fun _ => false;
     ApiRoutes.set_ok := fun _ v =>
       match v with JS.JStr _ => true | _ => false end |}.

(** Elements that cannot be placed: a text with no color, an image whose
    bytes are no image, and an element of another type. *)
Definition colorless : ApiRoutes.El :=
  ApiRoutes.TextOf
    (ApiRoutes.mkTextEl "A" 72 92 30 12 "Helvetica"
       (mkMatrix 12 0 0 12 72 700) None).

Definition corrupt : ApiRoutes.El :=
  ApiRoutes.ImageOf
    (ApiRoutes.mkImageEl (Some "AAAA") 10 20 4 6 (mkMatrix 1 0 0 1 10 20)).


(** The text run of [Sample.item], with no color. *)
Definition item : ApiRoutes.ColoredItem := ApiRoutes.mkColored Sample.item None.

(** A page with one text run and one image painted after two
    transforms. *)
Definition page : ApiRoutes.Page :=
  {| ApiRoutes.api_width := 612;
     ApiRoutes.api_height := 792;
     ApiRoutes.api_rotation := 0;
     ApiRoutes.api_items := Some [item];
     ApiRoutes.api_ops := Some Sample.ops;
     ApiRoutes.api_objs := objs Sample.page |}.

(** A page whose operator list cannot be read. *)
Definition broken_page : ApiRoutes.Page :=
  {| ApiRoutes.api_width := 612;
     ApiRoutes.api_height := 792;
     ApiRoutes.api_rotation := 0;
     ApiRoutes.api_items := Some [item];
     ApiRoutes.api_ops := None;
     ApiRoutes.api_objs := objs Sample.page |}.

Definition info : ApiRoutes.Info :=
  ApiRoutes.mkInfo (JS.JStr "Report") JS.JUndefined JS.JUndefined
    (JS.JStr "Writer") JS.JUndefined (JS.JStr "pdf-lib")
    JS.JUndefined JS.JUndefined.

Definition apipdfjs : ApiRoutes.ApiPdfJs :=
  {| ApiRoutes.api_getDocument := fun bytes =>
       if Sample.is_pdf bytes
       then Some (ApiRoutes.mkDocument [page; page] (Some (Some info)))
       else None |}.

Definition upload : ApiRoutes.UploadedFile :=
  ApiRoutes.mkUpload "uploads/17-a.pdf" "a.pdf" 4 "application/pdf".

(** The letter [a] and an e with an acute accent, whose UTF-8 form has
    two bytes: a string of two code points in three bytes. *)
Definition two_code_points : string :=
  String "a" (String (ascii_of_nat 195) (String (ascii_of_nat 169) "")).

Definition demo_metadata : ApiRoutes.MetadataField :=
  ApiRoutes.MetaObject
    (ApiRoutes.metadata_of (Some info) 1).

End ApiSample.
(* ===================================================================== *)
(** * Properties of the element model                                     *)
(* ===================================================================== *)

Section ElementModel.

Lemma num_or_zero (b : R) : JS.num_or 0 b = b.
Proof.
  unfold JS.num_or. destruct (Req_dec_T 0 0) as [_ | Hne].
  - reflexivity.
  - exfalso. apply Hne. reflexivity.
Qed.

Lemma num_or_nonzero (a b : R) : a <> 0 -> JS.num_or a b = a.
Proof.
  intros Ha. unfold JS.num_or. destruct (Req_dec_T a 0) as [He | _].
  - contradiction.
  - reflexivity.
Qed.

Lemma truthy_num (r : R) : JS.truthy (JS.JNum r) = true <-> r <> 0.
Proof.
  simpl. destruct (Req_dec_T r 0) as [He | Hne]; split; intros H;
    try reflexivity; try discriminate; try assumption.
  contradiction.
Qed.

(** The falsy values are [undefined], [null], [false], [0] and the empty
    string. *)
Lemma falsy_values (v : JS.value) :
  JS.truthy v = false <->
  v = JS.JUndefined \/ v = JS.JNull \/ v = JS.JBool false
  \/ v = JS.JNum 0 \/ v = JS.JStr EmptyString.
Proof.
  split.
  - destruct v as [ | | b | r | s | ]; simpl; intros H; auto.
    + destruct b; [discriminate | auto].
    + destruct (Req_dec_T r 0) as [-> | _]; [auto 6 | discriminate].
    + destruct s; [auto 6 | discriminate].
    + discriminate.
  - intros [-> | [-> | [-> | [-> | ->]]]]; simpl; try reflexivity.
    destruct (Req_dec_T 0 0) as [_ | Hne]; [reflexivity | ].
    exfalso. apply Hne. reflexivity.
Qed.

(** The extractor's image expression is [toCanonicalY] of the top
    edge. *)
Lemma place_image_y_toCanonicalY (vh : R) (img : RasterImage) (ctm : Matrix) :
  image_y (Extractor.place_image vh img (Some ctm))
  = toCanonicalY (m5 ctm + img_height img) vh.
Proof. reflexivity. Qed.

End ElementModel.

(* ===================================================================== *)
(** * Properties of the paint order                                       *)
(* ===================================================================== *)

Section Sorting.

Context {A : Type} (cmp : A -> A -> Z).

(** The search ends on the boundary [b] of a sorted range: the pivot
    does not come before the elements below [b] and comes before those
    from [b] on. *)
Lemma search_boundary (pivot : A) (sorted : list A) (b : nat) :
  (forall i x, (i < b)%nat -> nth_error sorted i = Some x ->
               (cmp pivot x <? 0)%Z = false) ->
  (forall i x, (b <= i)%nat -> nth_error sorted i = Some x ->
               (cmp pivot x <? 0)%Z = true) ->
  forall fuel left right,
    (left <= b <= right)%nat -> (right <= List.length sorted)%nat ->
    (right - left <= fuel)%nat ->
    JS.search cmp pivot sorted fuel left right = b.
Proof.
  intros Hlow Hhigh fuel.
  induction fuel as [ | fuel IH]; intros left right Hb Hlen Hfuel;
    cbn [JS.search].
  - lia.
  - destruct (Nat.ltb_spec left right) as [Hlt | Hge]; [ | lia].
    pose proof (Nat.div_mod_eq (right - left) 2) as Hdiv.
    pose proof (Nat.mod_upper_bound (right - left) 2 ltac:(lia)) as Hmod.
    set (mid := (left + (right - left) / 2)%nat) in *.
    assert (Hmid : (left <= mid < right)%nat) by (unfold mid; lia).
    destruct (nth_error sorted mid) as [x | ] eqn:Ex.
    + destruct (Nat.lt_ge_cases mid b) as [Hmb | Hmb].
      * rewrite (Hlow mid x Hmb Ex). apply IH; lia.
      * rewrite (Hhigh mid x Hmb Ex). apply IH; lia.
    + apply nth_error_None in Ex. lia.
Qed.





End Sorting.

Section PaintOrder.

Import Reconstructor.

Lemma filter_image_all (l : list Element) :
  Forall (fun e => is_image e = true) (filter is_image l).
Proof.
  apply Forall_forall. intros e He. apply filter_In in He. apply He.
Qed.

Lemma filter_text_all (l : list Element) :
  Forall (fun e => is_text e = true) (filter is_text l).
Proof.
  apply Forall_forall. intros e He. apply filter_In in He. apply He.
Qed.

(** An image goes behind the images and in front of the texts, a text
    goes behind everything. *)
Lemma insert_ordered (imgs txts : list Element) (x : Element) :
  Forall (fun e => is_image e = true) imgs ->
  Forall (fun e => is_text e = true) txts ->
  is_text x || is_image x = true ->
  JS.insert paint_order (imgs ++ txts) x
  = if is_image x then imgs ++ x :: txts else (imgs ++ txts) ++ [x].
Proof.
  intros Himgs Htxts Hx. unfold JS.insert.
  set (b := if is_image x then List.length imgs
            else List.length (imgs ++ txts)).
  assert (Hlen : List.length (imgs ++ txts)
                 = (List.length imgs + List.length txts)%nat)
    by apply length_app.
  assert (E : JS.search paint_order x (imgs ++ txts)
                (List.length (imgs ++ txts)) 0 (List.length (imgs ++ txts))
              = b).
  { apply search_boundary; try lia.
    - intros i y Hi Hy. unfold paint_order.
      destruct x as [t | im | ty]; simpl in *; try discriminate.
      + destruct (is_image y); reflexivity.
      + unfold b in Hi. rewrite nth_error_app1 in Hy by exact Hi.
        apply nth_error_In in Hy. rewrite Forall_forall in Himgs.
        specialize (Himgs y Hy). destruct y; try discriminate. reflexivity.
    - intros i y Hi Hy. unfold paint_order.
      destruct x as [t | im | ty]; simpl in *; try discriminate.
      + unfold b in Hi.
        assert (Hlt : (i < List.length (imgs ++ txts))%nat)
          by (apply nth_error_Some; rewrite Hy; discriminate).
        lia.
      + unfold b in Hi. rewrite nth_error_app2 in Hy by exact Hi.
        apply nth_error_In in Hy. rewrite Forall_forall in Htxts.
        specialize (Htxts y Hy). destruct y; try discriminate. reflexivity.
    - unfold b. destruct (is_image x); lia. }
  rewrite E. unfold b. destruct (is_image x).
  - rewrite firstn_app, Nat.sub_diag, firstn_all, firstn_O, app_nil_r.
    rewrite skipn_app, Nat.sub_diag, skipn_all, skipn_O. reflexivity.
  - rewrite firstn_all, skipn_all. reflexivity.
Qed.

Lemma insertions_ordered (rest : list Element) :
  Forall (fun e => is_text e || is_image e = true) rest ->
  forall done,
    fold_left (JS.insert paint_order) rest (images_then_texts done)
    = images_then_texts (done ++ rest).
Proof.
  intros Hrest. induction Hrest as [ | x rest Hx _ IH]; intros done; simpl.
  - rewrite app_nil_r. reflexivity.
  - unfold images_then_texts at 1.
    rewrite (insert_ordered _ _ x (filter_image_all done)
               (filter_text_all done) Hx).
    replace (done ++ x :: rest) with ((done ++ [x]) ++ rest)
      by (rewrite <- app_assoc; reflexivity).
    rewrite <- IH. f_equal. unfold images_then_texts.
    rewrite !filter_app. simpl.
    destruct x as [t | im | ty]; simpl in *; try discriminate.
    + rewrite app_nil_r, app_assoc. reflexivity.
    + rewrite app_nil_r, <- app_assoc. reflexivity.
Qed.

(** A list in paint order that begins with a text holds no image. *)
Lemma ordered_from_text (t : TextElement) (l : list Element) :
  images_then_texts (Text t :: l) = Text t :: l ->
  filter is_image l = [].
Proof.
  unfold images_then_texts. simpl. intros H.
  destruct (filter is_image l) as [ | i imgs] eqn:E; [reflexivity | ].
  exfalso. injection H as Hi _.
  assert (Hin : In i (filter is_image l)) by (rewrite E; left; reflexivity).
  apply filter_In in Hin. rewrite Hi in Hin. destruct Hin as [_ Hin].
  discriminate Hin.
Qed.

(** An ascending run of texts and images is in paint order already. *)
Lemma ascending_run_ordered (rest : list Element) :
  Forall (fun e => is_text e || is_image e = true) rest ->
  forall previous,
    is_text previous || is_image previous = true ->
    let run := previous
               :: firstn (JS.run_length paint_order false previous rest) rest
    in images_then_texts run = run.
Proof.
  intros Hrest. induction Hrest as [ | current rest Hc _ IH];
    intros previous Hp; simpl.
  - unfold images_then_texts.
    destruct previous; simpl in *; try discriminate; reflexivity.
  - destruct (paint_order current previous <? 0)%Z eqn:Eo.
    + unfold images_then_texts. simpl.
      destruct previous; simpl in *; try discriminate; reflexivity.
    + specialize (IH current Hc). simpl in IH.
      set (tail := firstn (JS.run_length paint_order false current rest) rest)
        in *.
      simpl. unfold images_then_texts in *.
      destruct previous as [t | im | ty]; simpl in *; try discriminate.
      * destruct current as [t' | im' | ty']; simpl in *; try discriminate.
        pose proof (ordered_from_text t' tail IH) as Hnone.
        fold tail. rewrite Hnone in IH |- *. simpl in IH |- *.
        injection IH as IH. rewrite IH. reflexivity.
      * fold tail. rewrite IH. reflexivity.
Qed.

Lemma run_ordered (l : list Element) :
  Forall (fun e => is_text e || is_image e = true) l ->
  exists done rest,
    l = done ++ rest
    /\ fst (JS.count_and_make_run paint_order l) = images_then_texts done
    /\ snd (JS.count_and_make_run paint_order l) = rest.
Proof.
  intros Hl. destruct l as [ | a [ | b rest]].
  - exists [], []. repeat split.
  - exists [a], []. inversion Hl as [ | ? ? Ha _]; subst.
    split; [reflexivity | split; [ | reflexivity]].
    unfold images_then_texts.
    destruct a; simpl in *; try discriminate; reflexivity.
  - inversion Hl as [ | ? ? Ha Hl']; subst.
    inversion Hl' as [ | ? ? Hb Hrest]; subst.
    unfold JS.count_and_make_run.
    set (n := S (S (JS.run_length paint_order
                      (paint_order b a <? 0)%Z b rest))).
    cbv beta iota zeta. unfold fst, snd.
    exists (firstn n (a :: b :: rest)), (skipn n (a :: b :: rest)).
    split; [symmetry; apply firstn_skipn | split; [ | reflexivity]].
    destruct (paint_order b a <? 0)%Z eqn:Eo.
    + assert (En : n = 2%nat).
      { unfold n. destruct rest as [ | c rest']; [reflexivity | ].
        assert (Hb' : is_image b = true).
        { unfold paint_order in Eo.
          destruct a, b; simpl in *; try discriminate; reflexivity. }
        destruct b; simpl in Hb'; try discriminate.
        simpl. unfold paint_order. simpl.
        destruct (is_image c), (is_text c); reflexivity. }
      rewrite En. simpl. unfold images_then_texts, paint_order in *.
      destruct a, b; simpl in *; try discriminate; reflexivity.
    + pose proof (ascending_run_ordered (b :: rest) Hl' a Ha) as H.
      simpl in H. rewrite Eo in H. unfold n. simpl. symmetry. exact H.
Qed.

(** On elements that are texts or images the sort puts the images first
    and the texts after them, each class in its input order. *)
Lemma sort_images_then_texts (l : list Element) :
  Forall (fun e => is_text e || is_image e = true) l ->
  JS.sort paint_order l = filter is_image l ++ filter is_text l.
Proof.
  intros Hl. destruct (run_ordered l Hl) as (done & rest & El & Ef & Es).
  unfold JS.sort. rewrite Ef, Es.
  rewrite insertions_ordered.
  - rewrite <- El. reflexivity.
  - rewrite El in Hl. apply Forall_app in Hl. apply Hl.
Qed.


End PaintOrder.

Section PaintOrderOfPage.
Context {pdflib : PdfLib}.



End PaintOrderOfPage.



(* ===================================================================== *)
(** * Traces                                                              *)
(* ===================================================================== *)

Section TraceLemmas.

Lemma appends_ret {A : Type} (a : A) : appends (ret a).
Proof. intros t. unfold ret. simpl. rewrite app_nil_r. reflexivity. Qed.

Lemma appends_throw {A : Type} : appends (@throw Trace A).
Proof. intros t. unfold throw. simpl. rewrite app_nil_r. reflexivity. Qed.

Lemma appends_emit (c : Call) : appends (emit c).
Proof. intros t. reflexivity. Qed.

Lemma appends_lift {A : Type} (o : option A) : appends (lift o).
Proof. destruct o; [apply appends_ret | apply appends_throw]. Qed.

Lemma appends_bind {A B : Type} (m : M Trace A) (f : A -> M Trace B) :
  appends m -> (forall a, appends (f a)) -> appends (bind m f).
Proof.
  intros Hm Hf t. unfold bind. rewrite (Hm t).
  destruct (m []) as [w [a | ]]; simpl.
  - rewrite (Hf a (t ++ w)), (Hf a w).
    simpl. rewrite !app_assoc. reflexivity.
  - reflexivity.
Qed.

Lemma appends_try_catch {A : Type} (m h : M Trace A) :
  appends m -> appends h -> appends (try_catch m h).
Proof.
  intros Hm Hh t. unfold try_catch. rewrite (Hm t).
  destruct (m []) as [w [a | ]]; simpl.
  - reflexivity.
  - rewrite (Hh (t ++ w)), (Hh w).
    simpl. rewrite !app_assoc. reflexivity.
Qed.

Lemma appends_for_of {X : Type} (xs : list X) (body : X -> M Trace unit) :
  (forall x, appends (body x)) -> appends (for_of xs body).
Proof.
  intros Hb. induction xs as [ | x xs IH]; simpl.
  - apply appends_ret.
  - apply appends_bind; [apply Hb | intros _; exact IH].
Qed.

(** A loop over two lists in a row. *)
Lemma for_of_app {S X : Type} (xs ys : list X) (body : X -> M S unit) :
  forall s,
    for_of (xs ++ ys) body s
    = bind (for_of xs body) (fun _ => for_of ys body) s.
Proof.
  induction xs as [ | x xs IH]; intros s; simpl.
  - reflexivity.
  - unfold bind in *. destruct (body x s) as [s' [[] | ]].
    + apply IH.
    + reflexivity.
Qed.


End TraceLemmas.

(* ===================================================================== *)
(** * Properties of the reconstruction                                    *)
(* ===================================================================== *)

Section Reconstruction.
Context {pdflib : PdfLib}.

Import Reconstructor.

Lemma appends_drawText (s : string) (x y : R) (size : JS.value) :
  appends (drawText s x y size).
Proof.
  unfold drawText. destruct (drawText_ok s size);
    [apply appends_emit | apply appends_throw].
Qed.

Lemma appends_draw_element (pd : PageDescriptor) (e : Element) :
  appends (draw_element pd e).
Proof.
  destruct e as [t | i | ty]; simpl.
  - apply appends_drawText.
  - destruct (src i) as [s | ]; [ | apply appends_ret].
    destruct (String.eqb s ""); [apply appends_ret | ].
    apply appends_try_catch; [ | apply appends_emit].
    apply appends_bind; [apply appends_lift | intros a; apply appends_emit].
  - apply appends_ret.
Qed.


(** C10: a text element whose [fontSize] is absent, zero or otherwise
    falsy is drawn at size 12, and a text element with a truthy
    [fontSize], a nonzero number in particular, is drawn at that
    [fontSize], by this reconstructor and by the one of src/app.js. *)
Theorem text_drawn_at_fontSize_or_12 (pageData : PageDescriptor)
  (t : TextElement) :
  draw_element pageData (Text t)
  = drawText (text t) (text_x t) (height pageData - text_y t) (text_size t)
  /\ AppJs.draw_element (Text t)
     = drawText (text t) (text_x t) (text_y t) (text_size t)
  /\ (fontSize t = JS.JUndefined \/ fontSize t = JS.JNum 0
      \/ JS.truthy (fontSize t) = false ->
      text_size t = JS.JNum 12)
  /\ (forall r, fontSize t = JS.JNum r -> r <> 0 -> text_size t = JS.JNum r)
  /\ (JS.truthy (fontSize t) = true -> text_size t = fontSize t).
Proof.
  split; [reflexivity | ]. split; [reflexivity | ].
  unfold text_size, JS.or. repeat split.
  - intros H.
    assert (F : JS.truthy (fontSize t) = false).
    { destruct H as [H | [H | H]]; [ | | exact H];
        apply falsy_values; rewrite H; auto 6. }
    rewrite F. reflexivity.
  - intros r Hr Hnz. rewrite Hr.
    rewrite (proj2 (truthy_num r) Hnz). reflexivity.
  - intros H. rewrite H. reflexivity.
Qed.

(** The calls of an element depend on the page through its height
    only. *)
Lemma draw_element_height (p q : PageDescriptor) (e : Element) :
  height p = height q -> draw_element p e = draw_element q e.
Proof.
  intros H. destruct e as [t | i | ty]; simpl; try rewrite H; reflexivity.
Qed.

(** An image whose bytes the embedder refuses draws nothing and does not
    throw: the [catch] logs it. *)
Lemma draw_corrupt_image (pd : PageDescriptor) (bad : ImageElement)
  (s : string) :
  src bad = Some s -> embed_image s = None ->
  snd (draw_element pd (Image bad) []) = Some tt
  /\ drawn (fst (draw_element pd (Image bad) [])) = [].
Proof.
  intros Hs He. simpl. rewrite Hs.
  destruct (String.eqb s ""); [split; reflexivity | ].
  unfold try_catch, bind, lift. rewrite He. split; reflexivity.
Qed.

(** An element never throws when pdf-lib takes its text. *)
Lemma draw_element_returns (pd : PageDescriptor) (e : Element) :
  text_drawable e = true -> forall t, snd (draw_element pd e t) = Some tt.
Proof.
  intros H t. destruct e as [te | i | ty]; simpl in *.
  - unfold drawText. rewrite H. reflexivity.
  - destruct (src i) as [s | ]; [ | reflexivity].
    destruct (String.eqb s ""); [reflexivity | ].
    unfold try_catch, bind, lift.
    destruct (embed_image s) as [im | ]; reflexivity.
  - reflexivity.
Qed.

Lemma for_of_returns {X : Type} (xs : list X) (body : X -> M Trace unit) :
  (forall x, In x xs -> forall t, snd (body x t) = Some tt) ->
  forall t, snd (for_of xs body t) = Some tt.
Proof.
  induction xs as [ | x xs IH]; intros Hb t; simpl; [reflexivity | ].
  unfold bind. pose proof (Hb x (or_introl eq_refl) t) as Hx.
  destruct (body x t) as [t' [[] | ]]; simpl in Hx; [ | discriminate].
  apply IH. intros y Hy. apply Hb. right. exact Hy.
Qed.













End Reconstruction.

Section CorruptImage.
Context {pdflib : PdfLib}.

Import Reconstructor.



End CorruptImage.


Lemma text_drawn_at_fontSize_or_12_witness :
  Reconstructor.text_size
    (mkText "C" 72 120 JS.JUndefined 30 12 "Helvetica") = JS.JNum 12
  /\ Reconstructor.text_size
       (mkText "A" 72 92 (JS.JNum 18) 30 12 "Helvetica") = JS.JNum 18.
Proof.
  split.
  - refine (proj1 (proj2 (proj2
             (@text_drawn_at_fontSize_or_12 Sample.pdflib (mkPage 612 792 [])
                (mkText "C" 72 120 JS.JUndefined 30 12 "Helvetica")))) _).
    left. reflexivity.
  - refine (proj1 (proj2 (proj2 (proj2
             (@text_drawn_at_fontSize_or_12 Sample.pdflib (mkPage 612 792 [])
                (mkText "A" 72 92 (JS.JNum 18) 30 12 "Helvetica")))))
             18 eq_refl _).
    lra.
Defined.

(* ===================================================================== *)
(** * Properties of the request validation                                *)
(* ===================================================================== *)

Section Validation.
Context {pdfjs : PdfJs} {pdflib : PdfLib}.

(** The two variants that test [pages] answer 400 to every body whose
    [pages] is no array, before any call on the output document. *)
Lemma non_array_pages_rejected (v : JS.value) :
  DiskApp.jsonToPdf (PagesOther v)
  = ([], Failed 400 "Invalid JSON format. Expected { pages: [...] }")
  /\ LambdaApp.jsonToPdf (LambdaApp.BodyObject (PagesOther v))
     = ([], Failed 400 "Invalid JSON format. Expected { pages: [...] }")
  /\ LambdaApp.jsonToPdf
       (LambdaApp.BodyBuffer (LambdaApp.ParsedValue (PagesOther v)))
     = ([], Failed 400 "Invalid JSON format. Expected { pages: [...] }").
Proof. repeat split. Qed.

(** src/app.js walks [pages] untested: whatever is no array and not the
    empty string throws after the document was created. *)
Lemma appjs_non_array_pages_uncaught (v : JS.value) :
  v <> JS.JStr "" ->
  AppJs.jsonToPdf (PagesOther v) = ([Create; EmbedFont], Uncaught).
Proof.
  intros Hv. destruct v as [ | | b | r | s | ]; try reflexivity.
  destruct s as [ | c s]; [contradiction Hv; reflexivity | reflexivity].
Qed.

(** C7: at the body [{}], whose [pages] is missing, the handler of
    src/app.js creates the document and embeds the font, then throws
    with no response sent: it answers no user error, whereas the handler
    with the test on [pages] answers 400 before any call on the
    document. *)
Theorem appjs_missing_pages_uncaught :
  AppJs.jsonToPdf (PagesOther JS.JUndefined) = ([Create; EmbedFont], Uncaught)
  /\ is_user_error (snd (AppJs.jsonToPdf (PagesOther JS.JUndefined))) = false
  /\ filter is_construction (fst (AppJs.jsonToPdf (PagesOther JS.JUndefined)))
     = [Create; EmbedFont]
  /\ is_user_error (snd (DiskApp.jsonToPdf (PagesOther JS.JUndefined))) = true
  /\ fst (DiskApp.jsonToPdf (PagesOther JS.JUndefined)) = [].
Proof. repeat split. Qed.

End Validation.

(* ===================================================================== *)
(** * Properties of the staged upload                                     *)
(* ===================================================================== *)

Section StagedUpload.
Context {pdfjs : PdfJs}.

Lemma remove_file_gone (p : string) (fs : FS) : remove_file p fs p = None.
Proof. unfold remove_file. rewrite String.eqb_refl. reflexivity. Qed.

(** The variant with disk storage leaves no staged file behind, whatever
    the file system held and however the extraction ends. *)
Lemma disk_upload_removed (p : string) (fs : FS) :
  fst (DiskApp.pdfToJson (Some p) fs) p = None.
Proof.
  unfold DiskApp.pdfToJson, respond, try_catch, bind, readFileSync,
    existsSync, unlinkSync, lift, ret, throw.
  destruct (fs p) as [data | ] eqn:Hp.
  - destruct (getDocument data) as [pdf | ].
    + destruct (Extractor.extract_pages pdf) as [pages | ]; simpl;
        repeat (rewrite Hp; simpl); apply remove_file_gone.
    + simpl. repeat (rewrite Hp; simpl). apply remove_file_gone.
  - simpl. repeat (rewrite Hp; simpl). reflexivity.
Qed.

(** C9: in src/app.js an upload that is staged on disk and is no
    document stays on disk: [getDocument] rejects, the handler is left
    before its [unlinkSync] and no response is sent. *)
Theorem appjs_upload_left_on_failure (p : string) (data : list Byte.byte)
  (fs : FS) :
  fs p = Some data ->
  getDocument data = None ->
  AppJs.pdfToJson (Some p) fs = (fs, Uncaught)
  /\ fst (AppJs.pdfToJson (Some p) fs) p = Some data.
Proof.
  intros Hp Hd.
  assert (E : AppJs.pdfToJson (Some p) fs = (fs, Uncaught)).
  { unfold AppJs.pdfToJson, respond, bind, lift, readFileSync, ret, throw.
    rewrite Hp, Hd. reflexivity. }
  split; [exact E | ]. rewrite E. exact Hp.
Qed.

(** A page whose text content cannot be read leaves the upload of
    src/app.js on disk as well. *)
Lemma appjs_upload_left_on_page_failure (p : string) (data : list Byte.byte)
  (fs : FS) (pdf : list PageSource) :
  fs p = Some data ->
  getDocument data = Some pdf ->
  AppJs.extract_pages pdf = None ->
  fst (AppJs.pdfToJson (Some p) fs) p = Some data.
Proof.
  intros Hp Hd He.
  unfold AppJs.pdfToJson, respond, bind, lift, readFileSync, ret, throw.
  rewrite Hp, Hd, He. exact Hp.
Qed.

(** On success src/app.js removes the upload. *)
Lemma appjs_upload_removed_on_success (p : string) (data : list Byte.byte)
  (fs : FS) (pdf : list PageSource) (pages : list PageDescriptor) :
  fs p = Some data ->
  getDocument data = Some pdf ->
  AppJs.extract_pages pdf = Some pages ->
  fst (AppJs.pdfToJson (Some p) fs) p = None
  /\ snd (AppJs.pdfToJson (Some p) fs) = Ok200 pages.
Proof.
  intros Hp Hd He.
  unfold AppJs.pdfToJson, respond, bind, lift, readFileSync, unlinkSync,
    ret, throw.
  rewrite Hp, Hd, He, Hp. simpl. split; [apply remove_file_gone | reflexivity].
Qed.

End StagedUpload.

Lemma appjs_upload_left_on_failure_witness :
  single_file "uploads/3f2a" Sample.junk_bytes "uploads/3f2a"%string
  = Some Sample.junk_bytes
  /\ @getDocument Sample.pdfjs Sample.junk_bytes = None
  /\ fst (@AppJs.pdfToJson Sample.pdfjs (Some "uploads/3f2a"%string)
            (single_file "uploads/3f2a" Sample.junk_bytes))
       "uploads/3f2a"%string
     = Some Sample.junk_bytes.
Proof.
  assert (Hp : single_file "uploads/3f2a" Sample.junk_bytes
                 "uploads/3f2a"%string = Some Sample.junk_bytes)
    by reflexivity.
  assert (Hd : @getDocument Sample.pdfjs Sample.junk_bytes = None)
    by reflexivity.
  split; [exact Hp | ]. split; [exact Hd | ].
  exact (proj2 (@appjs_upload_left_on_failure Sample.pdfjs
                  "uploads/3f2a" Sample.junk_bytes
                  (single_file "uploads/3f2a" Sample.junk_bytes) Hp Hd)).
Defined.

(* ===================================================================== *)
(** * Properties of the extraction                                        *)
(* ===================================================================== *)

Section Extraction.
Context {pdfjs : PdfJs}.

Import Extractor.

(** The [y] of an extracted text element is the raw [transform[5]]. *)
Lemma text_y_is_raw (item : TextItem) :
  text_y (text_element item) = m5 (transform item)
  /\ text_y (AppJs.text_element item) = m5 (transform item).
Proof. split; reflexivity. Qed.

(** The variant with the /api routes converts the [y] of a text. *)
Lemma api_text_y_is_canonical (vh : R) (item : TextItem) :
  text_y (ApiApp.text_element vh item)
  = toCanonicalY (m5 (transform item)) vh.
Proof. reflexivity. Qed.

(** The backward search never finds its operator: the codes of the list
    are numbers, and [OPS.setTransform] is [undefined]. *)
Lemma find_ctm_null (ops : list Op) (j : nat) : find_ctm ops j = None.
Proof.
  induction j as [ | j IH]; [reflexivity | ].
  simpl. destruct (nth_error ops j) as [op | ]; exact IH.
Qed.

(** The element of an image operator whose raster is found. *)
Lemma image_element_found (page : PageSource) (ops : list Op) (j : nat)
  (op : Op) (imgName : string) (img : RasterImage) :
  nth_error ops j = Some op ->
  painted_image op = Some imgName ->
  objs page imgName = Some img ->
  image_element page ops j
  = Some {| image_x := 0; image_y := 0;
            image_width := img_width img; image_height := img_height img;
            src := Some (toDataURL img) |}.
Proof.
  intros Hop Hname Himg. unfold image_element.
  rewrite Hop, Hname, Himg, find_ctm_null. reflexivity.
Qed.

(** C4: the search for the transform of an image ends on its initial
    [null] whatever the operators before the image are, a [transform]
    operator right before it included: an image-paint operator whose
    raster is found gives an image element of the page that is placed at
    [(0, 0)], not by the nearest preceding transform. *)
Theorem image_placed_at_origin (page : PageSource) (pre post : list Op)
  (m : Matrix) (op : Op) (imgName : string) (img : RasterImage) :
  painted_image op = Some imgName ->
  objs page imgName = Some img ->
  let ops := pre ++ Transform m :: op :: post in
  let j := S (List.length pre) in
  nth_error ops (j - 1) = Some (Transform m)
  /\ find_ctm ops j = None
  /\ exists i,
       image_element page ops j = Some i
       /\ In (Image i) (image_elements page ops)
       /\ image_x i = 0 /\ image_y i = 0.
Proof.
  intros Hname Himg ops j.
  assert (Hop : nth_error ops j = Some op).
  { unfold ops, j. rewrite nth_error_app2 by lia.
    replace (S (List.length pre) - List.length pre)%nat with 1%nat by lia.
    reflexivity. }
  split.
  { unfold ops, j. rewrite nth_error_app2 by lia.
    replace (S (List.length pre) - 1 - List.length pre)%nat with 0%nat by lia.
    reflexivity. }
  split; [apply find_ctm_null | ].
  pose proof (image_element_found page ops j op imgName img Hop Hname Himg)
    as E.
  eexists. split; [exact E | ]. split; [ | split; reflexivity].
  unfold image_elements. apply in_flat_map. exists j. split.
  - apply in_seq. split; [lia | ]. simpl.
    apply nth_error_Some. rewrite Hop. discriminate.
  - rewrite E. left. reflexivity.
Qed.

(** C5: an extracted image has the width and the height of its raster,
    whatever the operators before it are: the factors [hypot(a, b)] and
    [hypot(c, d)] belong to a branch that is taken for no operator list,
    so no image is scaled, not under [[s, 0, 0, s, e, f]] either. *)
Theorem image_kept_at_natural_size (page : PageSource) (ops : list Op)
  (j : nat) (i : ImageElement) :
  image_element page ops j = Some i ->
  exists op imgName img,
    nth_error ops j = Some op
    /\ painted_image op = Some imgName
    /\ objs page imgName = Some img
    /\ image_width i = img_width img
    /\ image_height i = img_height img
    /\ forall s e f,
         image_element page (Transform (mkMatrix s 0 0 s e f) :: ops) (S j)
         = Some i.
Proof.
  unfold image_element. intros H.
  destruct (nth_error ops j) as [op | ] eqn:Hop; [ | discriminate].
  destruct (painted_image op) as [imgName | ] eqn:Hname; [ | discriminate].
  destruct (objs page imgName) as [img | ] eqn:Himg; [ | discriminate].
  rewrite find_ctm_null in H. injection H as <-.
  exists op, imgName, img.
  split; [reflexivity | ]. split; [exact Hname | ]. split; [exact Himg | ].
  split; [reflexivity | ]. split; [reflexivity | ].
  intros s e f. simpl nth_error. rewrite Hop, Hname, Himg.
  rewrite find_ctm_null. reflexivity.
Qed.

End Extraction.

Section CoordinateFrames.

Import Floats.
Import Binary64.
Local Open Scope Z_scope.

Lemma pow2_pos (k : Z) : 0 <= k -> 0 < 2 ^ k.
Proof. intros H. apply Z.pow_pos_nonneg; lia. Qed.

Lemma pow2_half (k : Z) : 0 < k -> 2 ^ k = 2 * 2 ^ (k - 1).
Proof.
  intros H. replace k with (Z.succ (k - 1)) at 1 by lia.
  rewrite Z.pow_succ_r by lia. reflexivity.
Qed.

Lemma round_at_multiple (k n : Z) : exists q, round_at k n = q * 2 ^ k.
Proof. unfold round_at. eexists. reflexivity. Qed.

(** Rounding [k] bits away moves a number by half a unit of the last
    place that is kept, at most. *)
Lemma round_at_error (k n : Z) :
  0 < k -> Z.abs (round_at k n - n) <= 2 ^ (k - 1).
Proof.
  intros Hk. unfold round_at.
  pose proof (pow2_pos (k - 1) ltac:(lia)) as Hh.
  pose proof (pow2_half k Hk) as H2.
  pose proof (Z.div_mod n (2 ^ k) ltac:(lia)) as Hdm.
  pose proof (Z.mod_pos_bound n (2 ^ k) ltac:(lia)) as Hr.
  set (q := n / 2 ^ k) in *. set (r := n mod 2 ^ k) in *.
  set (half := 2 ^ (k - 1)) in *. set (p := 2 ^ k) in *.
  destruct (r <? half) eqn:E1; [apply Z.ltb_lt in E1; nia | ].
  apply Z.ltb_ge in E1.
  destruct (half <? r) eqn:E2; [apply Z.ltb_lt in E2; nia | ].
  apply Z.ltb_ge in E2.
  destruct (Z.even q); nia.
Qed.

Lemma log2_abs_bound (n p : Z) :
  0 < p -> Z.abs n < 2 ^ p -> Z.log2 (Z.abs n) < p.
Proof.
  intros Hp H. destruct (Z.eq_dec n 0) as [-> | Hn].
  - simpl. exact Hp.
  - apply Z.log2_lt_pow2; lia.
Qed.

(** An exact result below [2^p] in size is rounded to a finite number
    that is off by [2^(p - 54)] at most. *)
Lemma round_error (p n : Z) :
  54 <= p <= 2097 -> Z.abs n < 2 ^ p ->
  exists r, round n = Finite r /\ Z.abs (r - n) <= 2 ^ (p - 54).
Proof.
  intros Hp Hn. unfold round.
  pose proof (log2_abs_bound n p ltac:(lia) Hn) as Hl.
  set (k := Z.log2 (Z.abs n) - 52) in *.
  assert (Hbig : 2 ^ p <= 2 ^ 2097) by (apply Z.pow_le_mono_r; lia).
  assert (Hsmall : 0 < 2 ^ (p - 54)) by (apply pow2_pos; lia).
  assert (Hss : 2 ^ (p - 54) <= 2 ^ 2043) by (apply Z.pow_le_mono_r; lia).
  assert (H98 : 2 ^ 2097 + 2 ^ 2043 < 2 ^ 2098) by reflexivity.
  destruct (k <=? 0) eqn:Ek.
  - exists n. replace (n - n) with 0 by lia. simpl Z.abs.
    assert (F : (Z.abs n <? 2 ^ 2098) = true) by (apply Z.ltb_lt; lia).
    rewrite F. split; [reflexivity | lia].
  - apply Z.leb_gt in Ek.
    pose proof (round_at_error k n Ek) as He.
    assert (Hk : 2 ^ (k - 1) <= 2 ^ (p - 54))
      by (apply Z.pow_le_mono_r; lia).
    exists (round_at k n).
    assert (F : (Z.abs (round_at k n) <? 2 ^ 2098) = true)
      by (apply Z.ltb_lt; lia).
    rewrite F. split; [reflexivity | lia].
Qed.

(** What [round] gives is a number of the format: rounding it again
    changes nothing. *)
Lemma round_round (n r : Z) : round n = Finite r -> round r = Finite r.
Proof.
  unfold round at 1.
  set (k := Z.log2 (Z.abs n) - 52).
  destruct (k <=? 0) eqn:Ek.
  - destruct (Z.abs n <? 2 ^ 2098) eqn:F; [ | discriminate].
    intros H. injection H as <-. unfold round. fold k. rewrite Ek, F.
    reflexivity.
  - apply Z.leb_gt in Ek.
    destruct (Z.abs (round_at k n) <? 2 ^ 2098) eqn:F; [ | discriminate].
    intros H. injection H as <-.
    destruct (round_at_multiple k n) as [q Hq].
    pose proof (round_at_error k n Ek) as He.
    set (r := round_at k n) in *.
    assert (Hn : Z.abs n < 2 ^ (k + 53)).
    { destruct (Z.eq_dec n 0) as [-> | Hn0].
      - exfalso. unfold k in Ek. simpl in Ek. lia.
      - replace (k + 53) with (Z.succ (Z.log2 (Z.abs n))) by (unfold k; lia).
        apply Z.log2_spec. lia. }
    pose proof (pow2_pos k ltac:(lia)) as Hpk.
    pose proof (pow2_half k Ek) as Hhalf.
    assert (Hr : Z.abs r <= 2 ^ (k + 53)).
    { rewrite Z.pow_add_r in * by lia.
      remember (2 ^ 53) as c eqn:Ec. remember (2 ^ k) as p eqn:Ep.
      remember (2 ^ (k - 1)) as h eqn:Eh.
      assert (Ea : Z.abs r = Z.abs q * p)
        by (rewrite Hq, Z.abs_mul, (Z.abs_eq p) by lia; reflexivity).
      assert (Hq1 : Z.abs q * p < (c + 1) * p) by lia.
      apply Z.mul_lt_mono_pos_r in Hq1; [ | lia].
      rewrite Ea, (Z.mul_comm p c).
      apply Z.mul_le_mono_nonneg_r; lia. }
    unfold round. set (k' := Z.log2 (Z.abs r) - 52).
    destruct (k' <=? 0) eqn:Ek'; [rewrite F; reflexivity | ].
    apply Z.leb_gt in Ek'.
    assert (Hr0 : r <> 0).
    { intros E. unfold k' in Ek'. rewrite E in Ek'. simpl in Ek'. lia. }
    assert (Hk' : k' <= k + 1).
    { destruct (Z.eq_dec (Z.abs r) (2 ^ (k + 53))) as [E | NE].
      - unfold k'. rewrite E, Z.log2_pow2 by lia. lia.
      - assert (Z.log2 (Z.abs r) < k + 53)
          by (apply Z.log2_lt_pow2; lia).
        unfold k'. lia. }
    assert (Hdiv : r mod 2 ^ k' = 0).
    { destruct (Z.eq_dec k' (k + 1)) as [E | NE].
      - assert (Hlog : 2 ^ Z.log2 (Z.abs r) <= Z.abs r)
          by (apply Z.log2_spec; lia).
        replace (Z.log2 (Z.abs r)) with (k + 53) in Hlog
          by (unfold k' in E; lia).
        assert (Er : Z.abs r = 2 ^ (k + 53)) by lia.
        rewrite E.
        assert (H54 : 2 ^ (k + 53) = 2 ^ 52 * 2 ^ (k + 1))
          by (rewrite <- Z.pow_add_r by lia; f_equal; lia).
        destruct (Z.abs_eq_or_opp r) as [A | A]; rewrite A in Er.
        + rewrite Er, H54. apply Z.mod_mul. apply Z.pow_nonzero; lia.
        + replace r with (- 2 ^ 52 * 2 ^ (k + 1)) by lia.
          apply Z.mod_mul. apply Z.pow_nonzero; lia.
      - rewrite Hq. replace k with (k - k' + k') by lia.
        rewrite Z.pow_add_r by lia. rewrite Z.mul_assoc.
        apply Z.mod_mul. apply Z.pow_nonzero; lia. }
    assert (Eat : round_at k' r = r).
    { unfold round_at. rewrite Hdiv.
      assert (Hh : (0 <? 2 ^ (k' - 1)) = true)
        by (apply Z.ltb_lt; apply pow2_pos; lia).
      rewrite Hh.
      pose proof (Z.div_mod r (2 ^ k') ltac:(apply Z.pow_nonzero; lia)) as Hdm.
      rewrite Hdiv in Hdm. lia. }
    rewrite Eat, F. reflexivity.
Qed.

(** Taking [0] from a result leaves it as it is. *)
Lemma sub_zero (n r : Z) :
  round n = Finite r -> sub (Finite r) zero = Finite r.
Proof.
  intros H. unfold sub, zero. rewrite Z.sub_0_r. exact (round_round n r H).
Qed.

(** The arithmetic agrees with the binary64 arithmetic of the kernel:
    on a difference that is rounded up to the next power of two, on a
    tie, on subnormal numbers and on an overflow. *)
Example sub_as_the_kernel :
  sub (of_float 1e17) (of_float 1) = of_float (1e17 - 1)%float
  /\ sub (of_float 0x1.0000000000001p0) (of_float 0x1.fffffffffffffp-54)
     = of_float (0x1.0000000000001p0 - 0x1.fffffffffffffp-54)%float
  /\ sub (of_float 0x1p-1074) (of_float 0x1.8p-1073)
     = of_float (0x1p-1074 - 0x1.8p-1073)%float
  /\ sub (of_float 0x1.fffffffffffffp1023) (of_float (-0x1.fffffffffffffp1023))
     = of_float (0x1.fffffffffffffp1023 - -0x1.fffffffffffffp1023)%float
  /\ sub (of_float 792) (sub (of_float 792) (of_float 0x1.999999999999ap-4))
     = of_float (792 - (792 - 0x1.999999999999ap-4))%float.
Proof. vm_compute. repeat split. Qed.

(** The round trip is not the identity, even on a page of height 792:
    [0.1] comes back as another number. *)
Example round_trip_not_exact :
  fromCanonicalY (toCanonicalY (of_float 0x1.999999999999ap-4) (of_float 792))
                 (of_float 792) zero
  <> of_float 0x1.999999999999ap-4.
Proof. vm_compute. discriminate. Qed.

(** C2: for all binary64 numbers [y] and [h] with [|y| < 2^32] and
    [0 < h < 2^32], converting [y] into the canonical frame with the
    extractor's [h - y] and back with the reconstructor's
    [h - c - elemHeight] at element height [0] gives a number within
    [1e-6] of [y]. *)
Theorem canonical_y_round_trip (y h : number) :
  below 32 y = true -> below 32 h = true -> positive h = true ->
  within_tolerance (fromCanonicalY (toCanonicalY y h) h zero) y = true.
Proof.
  destruct y as [y | | ], h as [h | | ]; try discriminate.
  unfold below, positive. intros Hy Hh Hpos.
  apply Z.ltb_lt in Hy, Hh, Hpos.
  change (32 + 1074) with 1106 in *.
  unfold fromCanonicalY, toCanonicalY. unfold sub at 3.
  assert (P : 2 * 2 ^ 1106 = 2 ^ 1107) by reflexivity.
  assert (Q : 2 ^ 1106 + 2 ^ 1053 < 2 ^ 1107) by reflexivity.
  destruct (round_error 1107 (h - y) ltac:(lia) ltac:(lia)) as (c & Ec & Hc).
  rewrite Ec. unfold sub at 2.
  change (1107 - 54) with 1053 in Hc.
  destruct (round_error 1107 (h - c) ltac:(lia) ltac:(lia)) as (r & Er & Hr).
  change (1107 - 54) with 1053 in Hr.
  rewrite Er, (sub_zero _ _ Er). unfold within_tolerance.
  apply Z.leb_le.
  assert (T : 2 * 2 ^ 1053 * 1000000 <= 2 ^ 1074)
    by (intros E; discriminate E).
  lia.
Qed.

End CoordinateFrames.

Section CoordinateFramesAt.

Import Floats.

Lemma canonical_y_round_trip_witness :
  Binary64.within_tolerance
    (Binary64.fromCanonicalY
       (Binary64.toCanonicalY (Binary64.of_float 700) (Binary64.of_float 792))
       (Binary64.of_float 792) Binary64.zero)
    (Binary64.of_float 700) = true.
Proof.
  apply canonical_y_round_trip; vm_compute; reflexivity.
Defined.

(** C2, as it is stated for all [y] and all [h > 0], fails in binary64:
    at [y = 1] and [h = 1e17] the difference [h - y] is rounded to [h],
    the round trip gives [0], and [0] is not within [1e-6] of [1].  The
    arithmetic of the kernel gives the same [0]. *)
Lemma canonical_y_round_trip_fails :
  Binary64.fromCanonicalY
    (Binary64.toCanonicalY (Binary64.of_float 1) (Binary64.of_float 1e17))
    (Binary64.of_float 1e17) Binary64.zero
  = Binary64.zero
  /\ Binary64.of_float (1e17 - (1e17 - 1) - 0)%float = Binary64.zero
  /\ ~ (forall y h : Binary64.number,
          Binary64.is_binary64 y = true -> Binary64.is_binary64 h = true ->
          Binary64.positive h = true ->
          Binary64.within_tolerance
            (Binary64.fromCanonicalY (Binary64.toCanonicalY y h) h
                                     Binary64.zero) y
          = true).
Proof.
  split; [vm_compute; reflexivity | split; [vm_compute; reflexivity | ]].
  intros H.
  specialize (H (Binary64.of_float 1) (Binary64.of_float 1e17)).
  vm_compute in H. specialize (H eq_refl eq_refl eq_refl). discriminate H.
Qed.

End CoordinateFramesAt.

Lemma image_placed_at_origin_witness :
  exists i,
    @Extractor.image_element Sample.pdfjs Sample.page Sample.ops 3 = Some i
    /\ nth_error Sample.ops 2 = Some (Transform (mkMatrix 2 0 0 2 10 20))
    /\ image_x i = 0 /\ image_y i = 0.
Proof.
  destruct (@image_placed_at_origin Sample.pdfjs Sample.page
              [Transform (mkMatrix 1 0 0 1 5 6); OtherOp 10] [OtherOp 11]
              (mkMatrix 2 0 0 2 10 20) (PaintImageXObject "img_p0_1")
              "img_p0_1" Sample.raster eq_refl eq_refl)
    as (Hm & _ & i & E & _ & Hx & Hy).
  exists i. split; [exact E | ]. split; [exact Hm | ].
  split; [exact Hx | exact Hy].
Defined.

Lemma image_kept_at_natural_size_witness :
  exists img,
    objs Sample.page "img_p0_1" = Some img
    /\ image_width
         (mkImage 0 0 2 3
            (Some ("data:image/png;base64," ++ Sample.png_payload)%string))
       = img_width img
    /\ image_height
         (mkImage 0 0 2 3
            (Some ("data:image/png;base64," ++ Sample.png_payload)%string))
       = img_height img.
Proof.
  destruct (@image_kept_at_natural_size Sample.pdfjs Sample.page Sample.ops 3
              (mkImage 0 0 2 3
                 (Some ("data:image/png;base64," ++ Sample.png_payload)%string))
              eq_refl)
    as (op & imgName & img & Hop & Hname & Himg & Hw & Hh & _).
  exists img. injection Hop as <-. injection Hname as <-.
  split; [exact Himg | ]. split; [exact Hw | exact Hh].
Defined.

(** C1: the text run of the sample page sits at [transform[5] = 700] on
    a page of height 792: its extracted [y] is 700, the raw bottom-up
    value, not the canonical 92, in this extractor and in the one of
    src/app.js; the image branch and the text branch of the variant with
    the /api routes do convert, and the reconstructor that reads this
    [y] as canonical draws the run at 92. *)
Theorem extracted_text_y_not_canonical :
  text_y (Extractor.text_element Sample.item) = 700
  /\ toCanonicalY (m5 (transform Sample.item)) (viewport_height Sample.page)
     = 92
  /\ text_y (Extractor.text_element Sample.item)
     <> toCanonicalY (m5 (transform Sample.item))
                     (viewport_height Sample.page)
  /\ match @Extractor.extract_page Sample.pdfjs Sample.page with
     | Some pd =>
         match elements pd with
         | Text t :: _ => text_y t = 700
         | _ => False
         end
     | None => False
     end
  /\ text_y (AppJs.text_element Sample.item) = 700
  /\ text_y (ApiApp.text_element (viewport_height Sample.page) Sample.item)
     = 92
  /\ (forall img ctm,
        image_y (Extractor.place_image (viewport_height Sample.page) img
                                       (Some ctm))
        = toCanonicalY (m5 ctm + img_height img)
                       (viewport_height Sample.page))
  /\ @Reconstructor.draw_element Sample.pdflib (mkPage 612 792 [])
       (Text (Extractor.text_element Sample.item))
     = @drawText Sample.pdflib "Hello" 72 (792 - 700)
         (Reconstructor.text_size (Extractor.text_element Sample.item)).
Proof.
  destruct (text_y_is_raw Sample.item) as (Hraw & Happ).
  split; [exact Hraw | ].
  split; [unfold toCanonicalY; simpl; lra | ].
  split; [unfold toCanonicalY; simpl; lra | ].
  split; [reflexivity | ].
  split; [exact Happ | ].
  split; [simpl; lra | ].
  split; [intros img ctm; reflexivity | reflexivity].
Qed.

(* ===================================================================== *)
(** * Properties of the image format                                      *)
(* ===================================================================== *)

Section ImageFormat.
Context {pdflib : PdfLib} {sharp : Sharp}.

Local Open Scope string_scope.

(** The embedder of the reconstructor follows the label of the data URI,
    whatever the payload holds. *)
Lemma embedder_follows_label (payload : string) :
  Reconstructor.embed_image ("data:image/png;base64," ++ payload)
  = embedPng (base64_decode payload)
  /\ (JS.includes "image/png" payload = false ->
      Reconstructor.embed_image ("data:image/jpeg;base64," ++ payload)
      = embedJpg (base64_decode payload)).
Proof.
  split.
  - reflexivity.
  - intros H. unfold Reconstructor.embed_image.
    change (JS.includes "image/png" ("data:image/jpeg;base64," ++ payload))
      with (JS.includes "image/png" payload).
    rewrite H. reflexivity.
Qed.

(** The variant with the /api routes follows the bytes. *)
Lemma api_embedder_follows_content (data : string) :
  (metadata_format (base64_decode data) = Some "jpeg" ->
   jpg_ok (base64_decode data) = true ->
   ApiApp.embed_image data = Some (mkEmbedded AsJpg (base64_decode data)))
  /\ (metadata_format (base64_decode data) = Some "png" ->
      png_ok (base64_decode data) = true ->
      ApiApp.embed_image data = Some (mkEmbedded AsPng (base64_decode data)))
  /\ (metadata_format (base64_decode data) = None ->
      ApiApp.embed_image data = embedImage (base64_decode data)).
Proof.
  unfold ApiApp.embed_image. repeat split.
  - intros Hf Hok. rewrite Hf. simpl. unfold embedJpg. rewrite Hok.
    reflexivity.
  - intros Hf Hok. rewrite Hf. simpl. unfold embedPng. rewrite Hok.
    reflexivity.
  - intros Hf. rewrite Hf. reflexivity.
Qed.

End ImageFormat.

(** C6: an image element whose data URI is labelled [image/png] and
    whose bytes are a JPEG file is handed to [embedPng] by the
    reconstructor, which follows the label: the embedding is refused and
    the image is left out of the page.  The same bytes under the label
    [image/jpeg] are embedded, and the variant with the /api routes,
    which reads the format in the bytes, embeds them as JPEG. *)
Theorem embedder_chosen_by_label :
  Sample.is_jpeg (Sample.decode Sample.jpeg_payload) = true
  /\ @Reconstructor.embed_image Sample.pdflib
       ("data:image/png;base64," ++ Sample.jpeg_payload) = None
  /\ @Reconstructor.embed_image Sample.pdflib
       ("data:image/jpeg;base64," ++ Sample.jpeg_payload)
     = Some (mkEmbedded AsJpg (Sample.decode Sample.jpeg_payload))
  /\ @ApiApp.embed_image Sample.pdflib Sample.sharp Sample.jpeg_payload
     = Some (mkEmbedded AsJpg (Sample.decode Sample.jpeg_payload))
  /\ @LambdaApp.jsonToPdf Sample.pdflib
       (LambdaApp.BodyObject
          (PagesArray
             [request_page
                (mkPage 612 792
                   [Image (mkImage 10 20 4 6
                             (Some ("data:image/png;base64,"
                                    ++ Sample.jpeg_payload)%string))])]))
     = ([Create; EmbedFont; AddPage 612 792;
         ConsoleError "Error embedding image:"; Save],
        Ok200 tt).
Proof. repeat split. Qed.

(* ===================================================================== *)
(** * Sample runs                                                         *)
(* ===================================================================== *)

Section SampleRuns.

Local Open Scope string_scope.

(** The two /jsonToPdf handlers with the test on [pages] are one
    function on a parsed body. *)
Lemma lambda_jsonToPdf_object (pdflib : PdfLib) (pages : PagesField) :
  @LambdaApp.jsonToPdf pdflib (LambdaApp.BodyObject pages)
  = @DiskApp.jsonToPdf pdflib pages.
Proof. reflexivity. Qed.

(** The sample page, extracted: the text run first, then the image, at
    the origin and at the size of its raster. *)
Example extract_sample_page :
  @LambdaApp.pdfToJson Sample.pdfjs (Some Sample.pdf_bytes)
  = Ok200
      [mkPage 612 792
         [Text (mkText "Hello" 72 700
                  (JS.JNum (JS.num_or 12 (JS.hypot 12 0))) 30 12 "g_d0_f1");
          Image (mkImage 0 0 2 3
                   (Some "data:image/png;base64,iVBORw0KGgo="))]].
Proof. reflexivity. Qed.

(** No upload, and bytes that are no document. *)
Example extract_rejections :
  @LambdaApp.pdfToJson Sample.pdfjs None = Failed 400 "No file uploaded"
  /\ @LambdaApp.pdfToJson Sample.pdfjs (Some Sample.junk_bytes)
     = Failed 500 "Failed to process PDF".
Proof. split; reflexivity. Qed.

(** [[text A, image B, text C]] is painted as B, A, C. *)
Example paint_sample_page :
  @LambdaApp.jsonToPdf Sample.pdflib
    (LambdaApp.BodyObject
       (PagesArray
          [request_page
             (mkPage 612 792
                [Sample.text_A; Sample.image_B; Sample.text_C])]))
  = ([Create; EmbedFont; AddPage 612 792;
      DrawImage (mkEmbedded AsPng (Sample.decode Sample.png_payload))
                10 (792 - 20 - 6) 4 6;
      DrawText "A" 72 (792 - 92) (JS.or (JS.JNum 12) (JS.JNum 12));
      DrawText "C" 72 (792 - 120) (JS.or JS.JUndefined (JS.JNum 12));
      Save],
     Ok200 tt).
Proof. reflexivity. Qed.

(** src/app.js paints the same page in its input order, at the raw
    coordinates. *)
Example appjs_paint_sample_page :
  @AppJs.jsonToPdf Sample.pdflib
    (PagesArray
       [request_page
          (mkPage 612 792 [Sample.text_A; Sample.image_B; Sample.text_C])])
  = ([Create; EmbedFont; AddPage 612 792;
      DrawText "A" 72 92 (JS.or (JS.JNum 12) (JS.JNum 12));
      DrawImage (mkEmbedded AsPng (Sample.decode Sample.png_payload))
                10 20 4 6;
      DrawText "C" 72 120 (JS.or JS.JUndefined (JS.JNum 12));
      Save],
     Ok200 tt).
Proof. reflexivity. Qed.

(** The staged upload of the variant with disk storage is gone after a
    failed and after a successful extraction. *)
Example disk_sample_uploads :
  fst (@DiskApp.pdfToJson Sample.pdfjs (Some "/tmp/a.pdf")
         (single_file "/tmp/a.pdf" Sample.junk_bytes)) "/tmp/a.pdf" = None
  /\ snd (@DiskApp.pdfToJson Sample.pdfjs (Some "/tmp/a.pdf")
            (single_file "/tmp/a.pdf" Sample.junk_bytes))
     = Failed 500 "Failed to process PDF"
  /\ fst (@DiskApp.pdfToJson Sample.pdfjs (Some "/tmp/a.pdf")
            (single_file "/tmp/a.pdf" Sample.pdf_bytes)) "/tmp/a.pdf" = None
  /\ is_success (snd (@DiskApp.pdfToJson Sample.pdfjs (Some "/tmp/a.pdf")
                        (single_file "/tmp/a.pdf" Sample.pdf_bytes))) = true.
Proof. repeat split. Qed.

End SampleRuns.

(* ===================================================================== *)
(** * More on the extraction                                              *)
(* ===================================================================== *)

Section ExtractedPages.
Context {pdfjs : PdfJs}.

Import Extractor.

Lemma image_elements_are_images (page : PageSource) (ops : list Op) :
  Forall (fun e => is_image e = true) (image_elements page ops).
Proof.
  apply Forall_forall. intros e He. unfold image_elements in He.
  apply in_flat_map in He. destruct He as (j & _ & He).
  destruct (image_element page ops j) as [i | ]; simpl in He.
  - destruct He as [<- | []]. reflexivity.
  - contradiction.
Qed.

Lemma filter_none {A : Type} (f g : A -> bool) (l : list A) :
  Forall (fun x => g x = true) l ->
  (forall x, g x = true -> f x = false) ->
  filter f l = [].
Proof.
  intros Hl Hfg. induction Hl as [ | x l Hx _ IH]; simpl; [reflexivity | ].
  rewrite (Hfg x Hx). exact IH.
Qed.

Lemma filter_all {A : Type} (f : A -> bool) (l : list A) :
  Forall (fun x => f x = true) l -> filter f l = l.
Proof.
  intros Hl. induction Hl as [ | x l Hx _ IH]; simpl; [reflexivity | ].
  rewrite Hx, IH. reflexivity.
Qed.

Lemma text_elements_are_texts (items : list TextItem) :
  Forall (fun e => is_text e = true)
         (map (fun item => Text (text_element item)) items).
Proof. apply Forall_forall. intros e He. apply in_map_iff in He.
  destruct He as (item & <- & _). reflexivity.
Qed.

Lemma extract_page_none (page : PageSource) :
  extract_page page = None <-> textContent page = None.
Proof.
  unfold extract_page. destruct (textContent page); split;
    intros H; try discriminate; reflexivity.
Qed.

Lemma extract_page_dims (page : PageSource) (pd : PageDescriptor) :
  extract_page page = Some pd ->
  width pd = viewport_width page /\ height pd = viewport_height page.
Proof.
  unfold extract_page. destruct (textContent page); [ | discriminate].
  intros H. injection H as <-. split; reflexivity.
Qed.

(** X1: the page loop is all or nothing: the extraction of a document
    fails exactly when the text content of one of its pages cannot be
    read, and when it succeeds it gives one page descriptor per source
    page, in page order, each with the width and height of its
    viewport. *)
Theorem extract_pages_all_or_nothing (pdf : list PageSource) :
  (extract_pages pdf = None
   <-> Exists (fun page => textContent page = None) pdf)
  /\ (forall pds,
        extract_pages pdf = Some pds ->
        Forall2 (fun page pd =>
                   extract_page page = Some pd
                   /\ width pd = viewport_width page
                   /\ height pd = viewport_height page)
                pdf pds).
Proof.
  induction pdf as [ | page pdf [IHnone IHsome]].
  - split.
    + split; [discriminate | intros H; inversion H].
    + intros pds H. simpl in H. injection H as <-. constructor.
  - simpl. destruct (extract_page_none page) as [Hn1 Hn2].
    destruct (extract_page page) as [pd | ] eqn:Hpage.
    + assert (Hitems : textContent page <> None).
      { intros H. apply Hn2 in H. discriminate. }
      destruct (extract_pages pdf) as [pds' | ] eqn:Hrest.
      * split.
        -- split; [discriminate | ].
           intros H. inversion H as [? ? Hhd | ? ? Htl]; subst.
           ++ contradiction.
           ++ apply IHnone in Htl. discriminate.
        -- intros pds H. injection H as <-. constructor.
           ++ split; [exact Hpage | exact (extract_page_dims page pd Hpage)].
           ++ apply IHsome. reflexivity.
      * split.
        -- split; [ | reflexivity].
           intros _. apply Exists_cons_tl. apply IHnone. reflexivity.
        -- discriminate.
    + split.
      * split; [ | reflexivity].
        intros _. apply Exists_cons_hd. apply Hn1. reflexivity.
      * discriminate.
Qed.

(** The elements of an extracted page: its text runs, then images. *)
Lemma extract_page_shape (page : PageSource) (items : list TextItem) :
  textContent page = Some items ->
  exists pd images,
    extract_page page = Some pd
    /\ elements pd = map (fun item => Text (text_element item)) items ++ images
    /\ Forall (fun e => is_image e = true) images
    /\ Forall (fun e => is_text e || is_image e = true) (elements pd)
    /\ filter is_text (elements pd)
       = map (fun item => Text (text_element item)) items
    /\ filter is_image (elements pd) = images.
Proof.
  intros Hitems. unfold extract_page. rewrite Hitems.
  eexists. eexists. split; [reflexivity | ]. simpl.
  set (texts := map (fun item => Text (text_element item)) items).
  set (images := match operatorList page with
                 | Some ops => image_elements page ops
                 | None => []
                 end).
  assert (Htexts : Forall (fun e => is_text e = true) texts)
    by apply text_elements_are_texts.
  assert (Himages : Forall (fun e => is_image e = true) images).
  { unfold images. destruct (operatorList page);
      [apply image_elements_are_images | constructor]. }
  split; [reflexivity | ]. split; [exact Himages | ]. split; [ | split].
  - apply Forall_app. split.
    + eapply Forall_impl; [ | exact Htexts].
      intros e He. simpl in He. rewrite He. reflexivity.
    + eapply Forall_impl; [ | exact Himages].
      intros e He. simpl in He. rewrite He. apply orb_true_r.
  - rewrite filter_app, (filter_all is_text texts Htexts).
    rewrite (filter_none is_text is_image images Himages);
      [apply app_nil_r | ].
    intros e He. destruct e; simpl in *; try discriminate; reflexivity.
  - rewrite filter_app, (filter_all is_image images Himages).
    rewrite (filter_none is_image is_text texts Htexts); [reflexivity | ].
    intros e He. destruct e; simpl in *; try discriminate; reflexivity.
Qed.

(** X2: a page whose text content can be read is extracted, whatever
    becomes of its operator list; its elements are the text runs in run
    order followed by images only, so every element is a text or an
    image, and the reconstructor's paint order of the extracted page is
    its images followed by its texts. *)
Theorem extracted_page_texts_then_images (page : PageSource)
  (items : list TextItem) :
  textContent page = Some items ->
  exists pd,
    extract_page page = Some pd
    /\ Forall (fun e => is_text e || is_image e = true) (elements pd)
    /\ filter is_text (elements pd)
       = map (fun item => Text (text_element item)) items
    /\ elements pd
       = filter is_text (elements pd) ++ filter is_image (elements pd)
    /\ Reconstructor.sortedElements pd
       = filter is_image (elements pd) ++ filter is_text (elements pd).
Proof.
  intros Hitems.
  destruct (extract_page_shape page items Hitems)
    as (pd & images & Hpd & Hels & _ & Hty & Ft & Fi).
  exists pd. split; [exact Hpd | ]. split; [exact Hty | ].
  split; [exact Ft | ]. split; [rewrite Ft, Fi; exact Hels | ].
  unfold Reconstructor.sortedElements.
  apply sort_images_then_texts. exact Hty.
Qed.

Lemma image_element_length (page : PageSource) (pre l : list Op) :
  List.length
    (flat_map
       (fun j => match image_element page (pre ++ l) j with
                 | Some i => [Image i]
                 | None => []
                 end)
       (seq (List.length pre) (List.length l)))
  = List.length (filter (resolvable page) l).
Proof.
  revert pre. induction l as [ | op l IH]; intros pre; [reflexivity | ].
  simpl seq. simpl flat_map. rewrite length_app.
  assert (Hnth : nth_error (pre ++ op :: l) (List.length pre) = Some op).
  { rewrite nth_error_app2 by lia. rewrite Nat.sub_diag. reflexivity. }
  assert (Hhead :
    List.length (match image_element page (pre ++ op :: l) (List.length pre)
                 with Some i => [Image i] | None => [] end)
    = if resolvable page op then 1%nat else 0%nat).
  { unfold image_element, resolvable. rewrite Hnth.
    destruct (painted_image op) as [n | ]; [ | reflexivity].
    destruct (objs page n); reflexivity. }
  rewrite Hhead.
  specialize (IH (pre ++ [op])).
  rewrite <- app_assoc in IH. simpl in IH.
  rewrite length_app in IH. simpl in IH.
  replace (List.length pre + 1)%nat with (S (List.length pre)) in IH by lia.
  rewrite IH. simpl. destruct (resolvable page op); reflexivity.
Qed.

(** X3: the image loop gives exactly one image element for every
    image-paint operator whose raster object is found, and nothing for
    the other operators: a raster that cannot be resolved costs its own
    image only. *)
Theorem one_image_per_resolved_paint (page : PageSource) (ops : list Op) :
  List.length (image_elements page ops)
  = List.length (filter (resolvable page) ops)
  /\ (List.length (image_elements page ops) <= List.length ops)%nat.
Proof.
  assert (E : List.length (image_elements page ops)
              = List.length (filter (resolvable page) ops)).
  { unfold image_elements. exact (image_element_length page [] ops). }
  split; [exact E | ]. rewrite E. apply filter_length_le.
Qed.

End ExtractedPages.

Lemma extracted_page_texts_then_images_witness :
  exists pd,
    @Extractor.extract_page Sample.pdfjs Sample.page = Some pd
    /\ filter is_text (elements pd)
       = [Text (Extractor.text_element Sample.item)].
Proof.
  destruct (@extracted_page_texts_then_images Sample.pdfjs Sample.page
              [Sample.item] eq_refl)
    as (pd & E & _ & Ft & _).
  exists pd. split; [exact E | exact Ft].
Defined.

Lemma extract_pages_all_or_nothing_witness :
  exists pds,
    @Extractor.extract_pages Sample.pdfjs [Sample.page; Sample.page]
    = Some pds
    /\ Forall2 (fun page pd =>
                  @Extractor.extract_page Sample.pdfjs page = Some pd
                  /\ width pd = viewport_width page
                  /\ height pd = viewport_height page)
               [Sample.page; Sample.page] pds.
Proof.
  eexists. split; [reflexivity | ].
  exact (proj2 (@extract_pages_all_or_nothing Sample.pdfjs
                  [Sample.page; Sample.page]) _ eq_refl).
Defined.

(* ===================================================================== *)
(** * More on the staged upload                                           *)
(* ===================================================================== *)

Section DiskUpload.
Context {pdfjs : PdfJs}.

Lemma remove_file_other (p q : string) (fs : FS) :
  q <> p -> remove_file p fs q = fs q.
Proof.
  intros H. unfold remove_file.
  destruct (String.eqb_spec q p) as [E | _]; [contradiction | reflexivity].
Qed.

(** X4: whatever the file system holds and however the extraction ends,
    the handler with disk storage answers the request, leaves no file at
    the path of the upload and leaves every other file as it was. *)
Theorem disk_upload_only_removed (p : string) (fs : FS) :
  fst (DiskApp.pdfToJson (Some p) fs) p = None
  /\ (forall q, q <> p -> fst (DiskApp.pdfToJson (Some p) fs) q = fs q)
  /\ snd (DiskApp.pdfToJson (Some p) fs) <> Uncaught.
Proof.
  unfold DiskApp.pdfToJson, respond, try_catch, bind, readFileSync,
    existsSync, unlinkSync, lift, ret, throw.
  destruct (fs p) as [data | ] eqn:Hp.
  - destruct (getDocument data) as [pdf | ];
      [destruct (Extractor.extract_pages pdf) as [pages | ] | ];
      simpl; repeat (rewrite Hp; simpl);
      (split; [apply remove_file_gone | ]);
      (split; [intros q Hq; apply remove_file_other; exact Hq
              | discriminate]).
  - simpl. repeat (rewrite Hp; simpl).
    split; [reflexivity | ]. split; [reflexivity | discriminate].
Qed.

(** X5: the extractor of src/app.js never answers an error: either it
    answers 200 with the pages and the upload is removed, every other
    file being left as it was, or the request is left unanswered and the
    file system is as it was. *)
Theorem appjs_extract_answers_or_hangs (file : option string) (fs : FS) :
  (exists pages p,
      file = Some p
      /\ snd (AppJs.pdfToJson file fs) = Ok200 pages
      /\ fst (AppJs.pdfToJson file fs) p = None
      /\ forall q, q <> p -> fst (AppJs.pdfToJson file fs) q = fs q)
  \/ (snd (AppJs.pdfToJson file fs) = Uncaught
      /\ forall q, fst (AppJs.pdfToJson file fs) q = fs q).
Proof.
  unfold AppJs.pdfToJson, respond, bind, readFileSync, unlinkSync, lift,
    ret, throw.
  destruct file as [p | ]; [ | right; split; reflexivity].
  destruct (fs p) as [data | ] eqn:Hp; simpl;
    [ | right; split; reflexivity].
  destruct (getDocument data) as [pdf | ]; simpl;
    [ | right; split; reflexivity].
  destruct (AppJs.extract_pages pdf) as [pages | ]; simpl;
    [ | right; split; reflexivity].
  rewrite Hp. simpl. left. exists pages, p.
  split; [reflexivity | ]. split; [reflexivity | ].
  split; [apply remove_file_gone | ].
  intros q Hq. apply remove_file_other. exact Hq.
Qed.

End DiskUpload.

Lemma disk_upload_only_removed_witness :
  fst (@DiskApp.pdfToJson Sample.pdfjs (Some "/tmp/a.pdf"%string)
         (single_file "/tmp/b.pdf" Sample.pdf_bytes)) "/tmp/b.pdf"%string
  = Some Sample.pdf_bytes.
Proof.
  refine (proj1 (proj2 (@disk_upload_only_removed Sample.pdfjs "/tmp/a.pdf"
                          (single_file "/tmp/b.pdf" Sample.pdf_bytes)))
            "/tmp/b.pdf"%string _).
  discriminate.
Defined.

Lemma appjs_extract_answers_or_hangs_witness :
  snd (@AppJs.pdfToJson Sample.pdfjs (Some "uploads/3f2a"%string)
         (single_file "uploads/3f2a" Sample.junk_bytes)) = Uncaught
  /\ fst (@AppJs.pdfToJson Sample.pdfjs (Some "uploads/3f2a"%string)
            (single_file "uploads/3f2a" Sample.junk_bytes))
       "uploads/3f2a"%string
     = Some Sample.junk_bytes.
Proof.
  destruct (@appjs_extract_answers_or_hangs Sample.pdfjs
              (Some "uploads/3f2a"%string)
              (single_file "uploads/3f2a" Sample.junk_bytes))
    as [(pages & p & _ & H & _) | [H1 H2]].
  - discriminate H.
  - split; [exact H1 | ]. rewrite H2. reflexivity.
Defined.

(* ===================================================================== *)
(** * More on the reconstruction                                          *)
(* ===================================================================== *)

Section Control.


(** What a sequence appends to the empty trace. *)
Lemma bind_from_empty {A B : Type} (m : M Trace A) (f : A -> M Trace B) :
  (forall a, appends (f a)) ->
  bind m f []
  = match snd (m []) with
    | Some a => (fst (m []) ++ fst (f a []), snd (f a []))
    | None => (fst (m []), None)
    end.
Proof.
  intros Hf. unfold bind. destruct (m []) as [w [a | ]]; simpl.
  - apply Hf.
  - reflexivity.
Qed.


End Control.

Section WholeRequest.
Context {pdflib : PdfLib}.

Import Reconstructor.
















End WholeRequest.


(** A page without [elements] is answered 500 after its [addPage], a
    page without [width] before it. *)
Example incomplete_pages_fail :
  @DiskApp.jsonToPdf Sample.pdflib
    (PagesArray [mkPageData (Some 612) (Some 792) None])
  = ([Create; EmbedFont; AddPage 612 792;
      ConsoleError "Error creating PDF:"],
     Failed 500 "Failed to create PDF")
  /\ @DiskApp.jsonToPdf Sample.pdflib
       (PagesArray [mkPageData None (Some 792) (Some [Sample.text_A])])
     = ([Create; EmbedFont; ConsoleError "Error creating PDF:"],
        Failed 500 "Failed to create PDF")
  /\ @AppJs.jsonToPdf Sample.pdflib
       (PagesArray [mkPageData (Some 612) (Some 792) None])
     = ([Create; EmbedFont; AddPage 612 792], Uncaught).
Proof. repeat split. Qed.

(* ===================================================================== *)
(** * Round trips                                                         *)
(* ===================================================================== *)

Section RoundTrips.
Context {pdfjs : PdfJs} {pdflib : PdfLib}.

Lemma or_num (a b : R) :
  JS.or (JS.JNum a) (JS.JNum b) = JS.JNum (JS.num_or a b).
Proof.
  unfold JS.or, JS.num_or. simpl. destruct (Req_dec_T a 0); reflexivity.
Qed.

(** The size a text run is redrawn at: its height, else the scale of its
    transform, else 12. *)
Lemma extracted_text_size (item : TextItem) :
  Reconstructor.text_size (Extractor.text_element item)
  = JS.JNum (JS.num_or
               (JS.num_or (item_height item)
                          (JS.hypot (m0 (transform item))
                                    (m1 (transform item))))
               12).
Proof. unfold Reconstructor.text_size. simpl. apply or_num. Qed.

Lemma texts_loop (pd : PageDescriptor) (items : list TextItem) :
  Forall (fun item =>
            Reconstructor.text_drawable (Text (Extractor.text_element item))
            = true) items ->
  forall t,
    for_of (map (fun item => Text (Extractor.text_element item)) items)
           (Reconstructor.draw_element pd) t
    = (t ++ map (fun item =>
                   DrawText (str item) (m4 (transform item))
                     (height pd - m5 (transform item))
                     (Reconstructor.text_size (Extractor.text_element item)))
                items,
       Some tt).
Proof.
  intros H. induction H as [ | item items Hitem _ IH]; intros t; simpl.
  - rewrite app_nil_r. reflexivity.
  - unfold bind. simpl in Hitem. unfold drawText at 1. rewrite Hitem.
    unfold emit at 1. rewrite IH, <- app_assoc. reflexivity.
Qed.

Lemma for_of_calls_in {X : Type} (P : Call -> Prop) (xs : list X)
  (body : X -> M Trace unit) :
  (forall x, appends (body x)) ->
  (forall x, In x xs -> Forall P (fst (body x []))) ->
  Forall P (fst (for_of xs body [])).
Proof.
  intros Ha Hb. induction xs as [ | x xs IH]; simpl; [constructor | ].
  rewrite bind_from_empty by (intros _; apply appends_for_of; exact Ha).
  assert (Hx : Forall P (fst (body x []))) by (apply Hb; left; reflexivity).
  destruct (snd (body x [])) as [[] | ]; simpl; [ | exact Hx].
  apply Forall_app. split; [exact Hx | ].
  apply IH. intros y Hy. apply Hb. right. exact Hy.
Qed.

Lemma images_loop (pd : PageDescriptor) (es : list Element) :
  Forall (fun e => is_image e = true) es ->
  snd (for_of es (Reconstructor.draw_element pd) []) = Some tt
  /\ filter is_draw_text (fst (for_of es (Reconstructor.draw_element pd) []))
     = [].
Proof.
  intros H. rewrite Forall_forall in H. split.
  - apply for_of_returns. intros e He t. apply draw_element_returns.
    specialize (H e He). destruct e; simpl in *; try discriminate; reflexivity.
  - assert (Hc : Forall (fun c => is_draw_text c = false)
                   (fst (for_of es (Reconstructor.draw_element pd) []))).
    { apply for_of_calls_in; [apply appends_draw_element | ].
      intros e He. specialize (H e He).
      destruct e as [t | i | ty]; simpl in H; try discriminate.
      simpl. destruct (src i) as [s | ]; [ | constructor].
      destruct (String.eqb s ""); [constructor | ].
      unfold try_catch, bind, lift.
      destruct (Reconstructor.embed_image s) as [im | ]; simpl;
        repeat constructor. }
    induction Hc as [ | c w Hc _ IH]; simpl; [reflexivity | ].
    rewrite Hc. exact IH.
Qed.

(** X8: a page extracted by /pdfToJson and given back to /jsonToPdf of
    the same variant has every text run redrawn, in run order, at the
    [x] of its transform and at the page height minus the [y] of its
    transform, that is mirrored top to bottom, at the size of its
    height, else of the scale of its transform, else 12; the images of
    the page do not change that. *)
Theorem extracted_texts_redrawn_mirrored (page : PageSource)
  (items : list TextItem) (pd : PageDescriptor) :
  textContent page = Some items ->
  Extractor.extract_page page = Some pd ->
  Forall (fun item =>
            Reconstructor.text_drawable (Text (Extractor.text_element item))
            = true) items ->
  snd (Reconstructor.draw_page pd []) = Some tt
  /\ filter is_draw_text (fst (Reconstructor.draw_page pd []))
     = map (fun item =>
              DrawText (str item) (m4 (transform item))
                (viewport_height page - m5 (transform item))
                (JS.JNum (JS.num_or
                            (JS.num_or (item_height item)
                               (JS.hypot (m0 (transform item))
                                         (m1 (transform item))))
                            12)))
           items.
Proof.
  intros Hitems Hpd Hok.
  destruct (extract_page_shape page items Hitems)
    as (pd' & images & Hpd' & _ & _ & Hty & Ft & _).
  rewrite Hpd in Hpd'. injection Hpd' as <-.
  assert (Hsorted : Reconstructor.sortedElements pd
                    = filter is_image (elements pd)
                      ++ filter is_text (elements pd)).
  { unfold Reconstructor.sortedElements.
    apply sort_images_then_texts. exact Hty. }
  destruct (extract_page_dims page pd Hpd) as [_ Hh].
  unfold Reconstructor.draw_page.
  rewrite bind_from_empty
    by (intros _; apply appends_for_of; intros e; apply appends_draw_element).
  simpl. rewrite Hsorted, Ft.
  rewrite for_of_app.
  rewrite bind_from_empty
    by (intros _; apply appends_for_of; intros e; apply appends_draw_element).
  destruct (images_loop pd (filter is_image (elements pd))
              (filter_image_all (elements pd))) as [Hret Hnone].
  rewrite Hret, (texts_loop pd items Hok []). simpl.
  split; [reflexivity | ].
  rewrite filter_app, Hnone. simpl.
  rewrite Hh. clear.
  induction items as [ | item items IH]; simpl; [reflexivity | ].
  rewrite extracted_text_size, IH. reflexivity.
Qed.

(** X9: an image that the extractor found and that is given back to
    /jsonToPdf is drawn at the size of its raster in the top left corner
    of the page, at [x = 0] and [y = height - 0 - raster height]: that
    is where every extracted image goes, wherever the source has it. *)
Theorem extracted_image_redrawn (page : PageSource) (ops : list Op)
  (j : nat) (op : Op) (imgName : string) (img : RasterImage)
  (image : EmbeddedImage) :
  nth_error ops j = Some op ->
  Extractor.painted_image op = Some imgName ->
  objs page imgName = Some img ->
  toDataURL img <> EmptyString ->
  Reconstructor.embed_image (toDataURL img) = Some image ->
  exists i,
    Extractor.image_element page ops j = Some i
    /\ forall w els,
         Reconstructor.draw_element (mkPage w (viewport_height page) els)
                                    (Image i) []
         = ([DrawImage image 0
               (viewport_height page - 0 - img_height img)
               (img_width img) (img_height img)],
            Some tt).
Proof.
  intros Hop Hname Himg Hs He.
  eexists. split.
  - apply (image_element_found page ops j op imgName img Hop Hname Himg).
  - intros w els. simpl.
    destruct (String.eqb_spec (toDataURL img) "") as [E | _];
      [contradiction | ].
    unfold try_catch, bind, lift. rewrite He. reflexivity.
Qed.

End RoundTrips.

Lemma extracted_texts_redrawn_mirrored_witness :
  exists pd,
    @Extractor.extract_page Sample.pdfjs Sample.page = Some pd
    /\ filter is_draw_text (fst (@Reconstructor.draw_page Sample.pdflib pd []))
       = [DrawText "Hello" 72 (792 - 700)
            (JS.JNum (JS.num_or (JS.num_or 12 (JS.hypot 12 0)) 12))].
Proof.
  eexists. split; [reflexivity | ].
  refine (proj2 (@extracted_texts_redrawn_mirrored Sample.pdfjs Sample.pdflib
                   Sample.page [Sample.item] _ eq_refl eq_refl _)).
  repeat constructor.
Defined.

Lemma extracted_image_redrawn_witness :
  exists i,
    @Extractor.image_element Sample.pdfjs Sample.page Sample.ops 3 = Some i
    /\ @Reconstructor.draw_element Sample.pdflib (mkPage 612 792 [])
         (Image i) []
       = ([DrawImage (mkEmbedded AsPng (Sample.decode Sample.png_payload))
             0 (792 - 0 - 3) 2 3],
          Some tt).
Proof.
  destruct (@extracted_image_redrawn Sample.pdfjs Sample.pdflib Sample.page
              Sample.ops 3 (PaintImageXObject "img_p0_1") "img_p0_1"
              Sample.raster
              (mkEmbedded AsPng (Sample.decode Sample.png_payload))
              eq_refl eq_refl eq_refl)
    as (i & E & Hdraw).
  - discriminate.
  - reflexivity.
  - exists i. split; [exact E | exact (Hdraw 612 [])].
Defined.

(* ===================================================================== *)
(** * More on src/app.js                                                  *)
(* ===================================================================== *)

Section AppJsRequests.
Context {pdfjs : PdfJs} {pdflib : PdfLib}.








Lemma appjs_texts_loop (items : list TextItem) :
  Forall (fun item => appjs_paintable (Text (AppJs.text_element item)) = true)
         items ->
  forall t,
    for_of (map (fun item => Text (AppJs.text_element item)) items)
           AppJs.draw_element t
    = (t ++ map (fun item =>
                   DrawText (str item) (m4 (transform item))
                     (m5 (transform item))
                     (JS.JNum (JS.num_or
                                 (JS.hypot (m0 (transform item))
                                           (m1 (transform item)))
                                 12)))
                items,
       Some tt).
Proof.
  intros H. induction H as [ | item items Hitem _ IH]; intros t; simpl.
  - rewrite app_nil_r. reflexivity.
  - unfold bind. simpl in Hitem. unfold drawText at 1. rewrite Hitem.
    unfold emit at 1. rewrite IH, <- app_assoc. simpl.
    rewrite or_num. reflexivity.
Qed.

(** X11: a document of text runs extracted by src/app.js and given back
    to its /jsonToPdf is answered 200 with one page per source page, of
    the size of its viewport, on which every run is redrawn in run order
    at the [x] and [y] of its transform, at the scale of its transform
    or at 12 when that scale is 0. *)
Theorem appjs_round_trip (pdf : list PageSource)
  (pds : list PageDescriptor) :
  AppJs.extract_pages pdf = Some pds ->
  Forall (fun page =>
            forall items,
              textContent page = Some items ->
              Forall (fun item =>
                        appjs_paintable (Text (AppJs.text_element item))
                        = true) items) pdf ->
  AppJs.jsonToPdf (PagesArray (map request_page pds))
  = ([Create; EmbedFont]
     ++ flat_map
          (fun page =>
             AddPage (viewport_width page) (viewport_height page)
             :: match textContent page with
                | Some items =>
                    map (fun item =>
                           DrawText (str item) (m4 (transform item))
                             (m5 (transform item))
                             (JS.JNum (JS.num_or
                                         (JS.hypot (m0 (transform item))
                                                   (m1 (transform item)))
                                         12)))
                        items
                | None => []
                end)
          pdf
     ++ [Save],
     Ok200 tt).
Proof.
  intros Hex Hok.
  assert (Hloop : forall t,
    for_of (map request_page pds) AppJs.draw_page_data t
    = (t ++ flat_map
          (fun page =>
             AddPage (viewport_width page) (viewport_height page)
             :: match textContent page with
                | Some items =>
                    map (fun item =>
                           DrawText (str item) (m4 (transform item))
                             (m5 (transform item))
                             (JS.JNum (JS.num_or
                                         (JS.hypot (m0 (transform item))
                                                   (m1 (transform item)))
                                         12)))
                        items
                | None => []
                end)
          pdf,
       Some tt)).
  { revert pds Hex. induction Hok as [ | page pdf Hpage _ IH];
      intros pds Hex t; simpl in Hex.
    - injection Hex as <-. simpl. rewrite app_nil_r. reflexivity.
    - unfold AppJs.extract_page in Hex.
      destruct (textContent page) as [items | ] eqn:Hitems; [ | discriminate].
      destruct (AppJs.extract_pages pdf) as [pds' | ]; [ | discriminate].
      injection Hex as <-. simpl map. simpl for_of. unfold bind.
      unfold AppJs.draw_page_data at 1. simpl.
      unfold AppJs.draw_page at 1. unfold bind, emit. simpl.
      rewrite (appjs_texts_loop items (Hpage items eq_refl)).
      rewrite (IH pds' eq_refl). simpl. rewrite Hitems.
      rewrite <- !app_assoc. reflexivity. }
  unfold AppJs.jsonToPdf, respond, bind, emit, ret. simpl.
  rewrite Hloop. reflexivity.
Qed.

End AppJsRequests.


Lemma appjs_round_trip_witness :
  @AppJs.jsonToPdf Sample.pdflib
    (PagesArray
       [request_page
          (mkPage 612 792 [Text (AppJs.text_element Sample.item)])])
  = ([Create; EmbedFont; AddPage 612 792;
      DrawText "Hello" 72 700 (JS.JNum (JS.num_or (JS.hypot 12 0) 12));
      Save],
     Ok200 tt).
Proof.
  refine (@appjs_round_trip Sample.pdflib [Sample.page]
            [mkPage 612 792 [Text (AppJs.text_element Sample.item)]]
            eq_refl _).
  constructor; [ | constructor].
  intros items H. injection H as <-. repeat constructor.
Defined.

(* ===================================================================== *)
(** * The /api routes                                                     *)
(* ===================================================================== *)

Section ApiExtraction.
Context {pdfjs : PdfJs} {apipdfjs : ApiRoutes.ApiPdfJs}.

Import ApiRoutes.

(** The loop over the operator list pushes nothing and leaves
    [currentTransform] as it is: a code of [fnArray] is a number, and
    both tests compare it with a string. *)
Lemma image_els_nothing (vh : R) (objs : string -> option RasterImage)
  (ops : list Op) :
  forall current,
    image_els vh objs current ops = []
    /\ fold_left track ops current = current.
Proof.
  induction ops as [ | op ops IH]; intros current; simpl.
  - split; reflexivity.
  - unfold track at 1 3. simpl. apply IH.
Qed.

(** X12: [extractPageElements] returns the text elements of the page, one
    per text item in item order, and no image element, whatever the
    operator list paints and whatever rasters the page holds. *)
Theorem api_extracts_texts_only (page : Page) (els : list El) :
  extractPageElements page = Some els ->
  exists items ops,
    api_items page = Some items
    /\ api_ops page = Some ops
    /\ els = map (fun item => TextOf (text_el (api_height page) item)) items
    /\ Forall (fun e => exists t, e = TextOf t) els.
Proof.
  unfold extractPageElements. intros H.
  destruct (api_items page) as [items | ]; [ | discriminate].
  destruct (api_ops page) as [ops | ]; [ | discriminate].
  rewrite (proj1 (image_els_nothing (api_height page) (api_objs page) ops
                    (Some identity))), app_nil_r in H.
  injection H as <-. exists items, ops.
  repeat (split; [reflexivity | ]).
  apply Forall_forall. intros e He. apply in_map_iff in He.
  destruct He as (item & <- & _). eexists. reflexivity.
Qed.

Lemma extract_pages_numbered (ps : list Page) :
  forall i infos,
    extract_pages i ps = Some infos ->
    map pageNumber infos = seq i (List.length ps)
    /\ Forall2 (fun page info =>
                  info_width info = Some (api_width page)
                  /\ info_height info = Some (api_height page)
                  /\ info_rotation info = Some (api_rotation page)
                  /\ info_elements info = extractPageElements page)
               ps infos.
Proof.
  induction ps as [ | page ps IH]; intros i infos H; simpl in H.
  - injection H as <-. split; [reflexivity | constructor].
  - destruct (extractPageElements page) as [els | ] eqn:Hels;
      [ | discriminate].
    destruct (extract_pages (S i) ps) as [infos' | ] eqn:Hrest;
      [ | discriminate].
    injection H as <-. destruct (IH (S i) infos' Hrest) as [Hn Hd].
    split.
    + simpl. rewrite Hn. reflexivity.
    + constructor; [ | exact Hd]. simpl. rewrite Hels. repeat split.
Qed.

(** X13: when /api/pdf-to-json answers 200 its pages are numbered 1, 2,
    ... in page order, there is one per page of the document and
    [pageCount] is their number; each carries the width, height and
    rotation of its viewport, and [fileInfo] echoes the upload. *)
Theorem api_pages_numbered_from_one (f : UploadedFile) (fs : FS)
  (r : Result) :
  snd (pdf_to_json (Some f) fs) = Ok200 r ->
  map pageNumber (pages r) = seq 1 (List.length (pages r))
  /\ pageCount (metadata r) = List.length (pages r)
  /\ fileInfo r = (originalname f, size f, mimetype f)
  /\ exists data doc,
       fs (path f) = Some data
       /\ api_getDocument data = Some doc
       /\ Forall2 (fun page info =>
                     info_width info = Some (api_width page)
                     /\ info_height info = Some (api_height page)
                     /\ info_rotation info = Some (api_rotation page)
                     /\ info_elements info = extractPageElements page)
                  (doc_pages doc) (pages r).
Proof.
  unfold pdf_to_json, respond, try_catch, bind, readFileSync, existsSync,
    unlinkSync, lift, ret, throw.
  destruct (fs (path f)) as [data | ] eqn:Hp; simpl;
    [ | repeat (rewrite Hp; simpl); intros H; discriminate H].
  destruct (api_getDocument data) as [doc | ] eqn:Hdoc; simpl;
    [ | repeat (rewrite Hp; simpl); intros H; discriminate H].
  destruct (doc_metadata doc) as [info | ]; simpl;
    [ | repeat (rewrite Hp; simpl); intros H; discriminate H].
  destruct (extract_pages 1 (doc_pages doc)) as [infos | ] eqn:Hex; simpl;
    [ | repeat (rewrite Hp; simpl); intros H; discriminate H].
  repeat (rewrite Hp; simpl). intros H. injection H as <-. simpl.
  destruct (extract_pages_numbered (doc_pages doc) 1 infos Hex) as [Hn Hd].
  assert (Hlen : List.length infos = List.length (doc_pages doc)).
  { symmetry. eapply Forall2_length. exact Hd. }
  split; [rewrite Hn, Hlen; reflexivity | ].
  split; [symmetry; exact Hlen | ].
  split; [reflexivity | ].
  exists data, doc. repeat split; assumption.
Qed.

(** X14: /api/pdf-to-json always answers; whatever the file system holds
    and however the extraction ends it leaves no file at the path of the
    upload and leaves every other file as it was; and it answers 200
    only when the document, its metadata and every page could be
    read. *)
Theorem api_upload_only_removed (f : UploadedFile) (fs : FS) :
  fst (pdf_to_json (Some f) fs) (path f) = None
  /\ (forall q, q <> path f -> fst (pdf_to_json (Some f) fs) q = fs q)
  /\ snd (pdf_to_json (Some f) fs) <> Uncaught
  /\ (is_success (snd (pdf_to_json (Some f) fs)) = true
      <-> exists data doc info infos,
            fs (path f) = Some data
            /\ api_getDocument data = Some doc
            /\ doc_metadata doc = Some info
            /\ extract_pages 1 (doc_pages doc) = Some infos).
Proof.
  unfold pdf_to_json, respond, try_catch, bind, readFileSync, existsSync,
    unlinkSync, lift, ret, throw.
  destruct (fs (path f)) as [data | ] eqn:Hp; simpl.
  - destruct (api_getDocument data) as [doc | ] eqn:Hdoc; simpl.
    + destruct (doc_metadata doc) as [info | ] eqn:Hmeta; simpl.
      * destruct (extract_pages 1 (doc_pages doc)) as [infos | ] eqn:Hex;
          simpl; repeat (rewrite Hp; simpl).
        -- split; [apply remove_file_gone | ].
           split; [intros q Hq; apply remove_file_other; exact Hq | ].
           split; [discriminate | ]. split; [ | reflexivity].
           intros _. exists data, doc, info, infos. repeat split; assumption.
        -- split; [apply remove_file_gone | ].
           split; [intros q Hq; apply remove_file_other; exact Hq | ].
           split; [discriminate | ]. split; [discriminate | ].
           intros (d & dc & i & ins & Hd & Hdc & Hi & His).
           injection Hd as <-. rewrite Hdoc in Hdc. injection Hdc as <-.
           rewrite Hex in His. discriminate.
      * repeat (rewrite Hp; simpl).
        split; [apply remove_file_gone | ].
        split; [intros q Hq; apply remove_file_other; exact Hq | ].
        split; [discriminate | ]. split; [discriminate | ].
        intros (d & dc & i & ins & Hd & Hdc & Hi & His).
        injection Hd as <-. rewrite Hdoc in Hdc. injection Hdc as <-.
        rewrite Hmeta in Hi. discriminate.
    + repeat (rewrite Hp; simpl).
      split; [apply remove_file_gone | ].
      split; [intros q Hq; apply remove_file_other; exact Hq | ].
      split; [discriminate | ]. split; [discriminate | ].
      intros (d & dc & i & ins & Hd & Hdc & Hi & His).
      injection Hd as <-. rewrite Hdoc in Hdc. discriminate.
  - repeat (rewrite Hp; simpl).
    split; [reflexivity | ]. split; [reflexivity | ].
    split; [discriminate | ]. split; [discriminate | ].
    intros (d & dc & i & ins & Hd & _). discriminate.
Qed.

End ApiExtraction.

Lemma api_extracts_texts_only_witness :
  ApiRoutes.api_ops ApiSample.page = Some Sample.ops
  /\ nth_error Sample.ops 3 = Some (PaintImageXObject "img_p0_1")
  /\ ApiRoutes.api_objs ApiSample.page "img_p0_1" = Some Sample.raster
  /\ exists els,
       @ApiRoutes.extractPageElements Sample.pdfjs ApiSample.page = Some els
       /\ Forall (fun e => exists t, e = ApiRoutes.TextOf t) els.
Proof.
  split; [reflexivity | ]. split; [reflexivity | ]. split; [reflexivity | ].
  eexists. split; [reflexivity | ].
  destruct (@api_extracts_texts_only Sample.pdfjs ApiSample.page _ eq_refl)
    as (items & ops & _ & _ & _ & H).
  exact H.
Defined.

Lemma api_pages_numbered_from_one_witness :
  exists r,
    snd (@ApiRoutes.pdf_to_json Sample.pdfjs ApiSample.apipdfjs
           (Some ApiSample.upload)
           (single_file "uploads/17-a.pdf" Sample.pdf_bytes))
    = Ok200 r
    /\ map ApiRoutes.pageNumber (ApiRoutes.pages r) = [1; 2]%nat
    /\ ApiRoutes.pageCount (ApiRoutes.metadata r) = 2%nat.
Proof.
  eexists. split; [reflexivity | ].
  destruct (@api_pages_numbered_from_one Sample.pdfjs ApiSample.apipdfjs
              ApiSample.upload
              (single_file "uploads/17-a.pdf" Sample.pdf_bytes) _ eq_refl)
    as (Hn & Hc & _).
  split; [exact Hn | exact Hc].
Defined.

Lemma api_upload_only_removed_witness :
  fst (@ApiRoutes.pdf_to_json Sample.pdfjs ApiSample.apipdfjs
         (Some ApiSample.upload)
         (single_file "uploads/other.pdf" Sample.pdf_bytes))
    "uploads/other.pdf"%string
  = Some Sample.pdf_bytes.
Proof.
  refine (proj1 (proj2 (@api_upload_only_removed Sample.pdfjs
                          ApiSample.apipdfjs ApiSample.upload
                          (single_file "uploads/other.pdf" Sample.pdf_bytes)))
            "uploads/other.pdf"%string _).
  discriminate.
Defined.

Section ApiReconstruction.
Context {pdfjs : PdfJs} {pdflib : PdfLib} {sharp : Sharp}
        {apipdflib : ApiRoutes.ApiPdfLib}.

Import ApiRoutes.




Lemma set_field_run (field : MetaField) (v : JS.value) (t : list ApiCall) :
  field_accepted field v = true ->
  exists w,
    set_field field v t = (t ++ w, Some tt)
    /\ Forall (fun c => exists f x, c = ASet f x) w.
Proof.
  unfold field_accepted, set_field, api_emit, ret. intros H.
  destruct (JS.truthy v); simpl in H.
  - rewrite H. eexists. split; [reflexivity | ].
    constructor; [exists field, v; reflexivity | constructor].
  - exists []. rewrite app_nil_r. split; [reflexivity | constructor].
Qed.

Lemma set_metadata_run (metadata : MetadataField) (t : list ApiCall) :
  metadata_accepted metadata = true ->
  exists w,
    set_metadata metadata t = (t ++ w, Some tt)
    /\ Forall (fun c => exists f x, c = ASet f x) w.
Proof.
  destruct metadata as [m | v]; simpl; intros Hacc.
  - apply andb_prop in Hacc. destruct Hacc as [Hacc A6].
    apply andb_prop in Hacc. destruct Hacc as [Hacc A5].
    apply andb_prop in Hacc. destruct Hacc as [Hacc A4].
    apply andb_prop in Hacc. destruct Hacc as [Hacc A3].
    apply andb_prop in Hacc. destruct Hacc as [A1 A2].
    unfold bind.
    destruct (set_field_run FTitle (title m) t) as (w1 & H1 & F1);
      [assumption | ].
    rewrite H1.
    destruct (set_field_run FAuthor (author m) (t ++ w1)) as (w2 & H2 & F2);
      [assumption | ].
    rewrite H2.
    destruct (set_field_run FSubject (subject m) ((t ++ w1) ++ w2))
      as (w3 & H3 & F3); [assumption | ].
    rewrite H3.
    destruct (set_field_run FCreator (creator m) (((t ++ w1) ++ w2) ++ w3))
      as (w4 & H4 & F4); [assumption | ].
    rewrite H4.
    destruct (set_field_run FKeywords (keywords m)
                ((((t ++ w1) ++ w2) ++ w3) ++ w4)) as (w5 & H5 & F5);
      [assumption | ].
    rewrite H5.
    destruct (set_field_run FProducer (producer m)
                (((((t ++ w1) ++ w2) ++ w3) ++ w4) ++ w5)) as (w6 & H6 & F6);
      [assumption | ].
    rewrite H6.
    exists (w1 ++ w2 ++ w3 ++ w4 ++ w5 ++ w6).
    rewrite <- !app_assoc. split; [reflexivity | ].
    repeat (apply Forall_app; split; try assumption).
  - exists []. unfold ret. rewrite app_nil_r.
    split; [reflexivity | constructor].
Qed.

Lemma filter_nothing {A : Type} (P : A -> Prop) (f : A -> bool)
  (w : list A) :
  (forall c, P c -> f c = false) -> Forall P w -> filter f w = [].
Proof.
  intros Hf Hw. induction Hw as [ | c w Hc _ IH]; simpl; [reflexivity | ].
  rewrite (Hf c Hc). exact IH.
Qed.

(** A loop whose turns all return, each appending what [first] says and
    then calls of the kind [P]. *)
Lemma for_of_run {X : Type} (P : ApiCall -> Prop) (xs : list X)
  (body : X -> M (list ApiCall) unit) (first : X -> list ApiCall) :
  (forall x, In x xs ->
             forall t, exists w,
               body x t = (t ++ first x ++ w, Some tt) /\ Forall P w) ->
  forall t,
  exists ws,
    for_of xs body t = (t ++ ws, Some tt)
    /\ (forall f, (forall c, P c -> f c = false) ->
                  filter f ws = filter f (flat_map first xs)).
Proof.
  induction xs as [ | x xs IH]; intros Hb t; simpl.
  - exists []. rewrite app_nil_r. split; [reflexivity | reflexivity].
  - unfold bind.
    destruct (Hb x (or_introl eq_refl) t) as (w & Hw & Fw). rewrite Hw.
    destruct (IH (fun y Hy => Hb y (or_intror Hy)) (t ++ first x ++ w))
      as (ws & Hws & Fws).
    rewrite Hws. exists ((first x ++ w) ++ ws).
    rewrite <- !app_assoc. split; [reflexivity | ].
    intros f Hf. rewrite !filter_app, (Fws f Hf).
    rewrite (filter_nothing P f w Hf Fw). reflexivity.
Qed.

(** X15: /api/json-to-pdf answers 400 exactly when [metadata] or [pages]
    is falsy, and then before any call on the output document; pages
    that are truthy but no array are not caught by this test. *)
Theorem api_rejects_falsy_metadata_or_pages (metadata : MetadataField)
  (pages : PagesField) :
  (is_user_error (snd (json_to_pdf metadata pages)) = true
   <-> metadata_truthy metadata && pages_truthy pages = false)
  /\ (metadata_truthy metadata && pages_truthy pages = false ->
      json_to_pdf metadata pages
      = ([], Failed 400
               "Invalid JSON structure. Metadata and pages are required.")).
Proof.
  unfold json_to_pdf, respond, try_catch.
  destruct (metadata_truthy metadata) eqn:Hm;
    [destruct (pages_truthy pages) eqn:Hp | ]; simpl.
  - split; [ | discriminate]. split; [ | discriminate].
    unfold bind, api_emit, ret. simpl.
    destruct (set_metadata metadata [ACreate; ARegisterFontkit])
      as [t1 [[] | ]]; simpl; [ | discriminate].
    destruct (for_pages pages t1) as [t' [[] | ]]; simpl; discriminate.
  - split; [split; reflexivity | reflexivity].
  - split; [split; reflexivity | reflexivity].
Qed.

(** What a request with truthy [metadata] and [pages] appends and
    answers, by what its page loop does. *)
Lemma json_to_pdf_run (metadata : MetadataField) (pages : PagesField) :
  metadata_truthy metadata = true ->
  metadata_accepted metadata = true ->
  pages_truthy pages = true ->
  exists w,
    Forall (fun c => exists f x, c = ASet f x) w
    /\ json_to_pdf metadata pages
       = match for_pages pages ([ACreate; ARegisterFontkit] ++ w) with
         | (t, Some _) => (t ++ [ASave], Ok200 tt)
         | (t, None) =>
             (t ++ [AConsoleError "Error generating PDF:"],
              Failed 500 "Error generating PDF")
         end.
Proof.
  intros Hm Ha Hp. unfold json_to_pdf, respond, try_catch.
  rewrite Hm, Hp. simpl.
  unfold bind, api_emit, ret. simpl.
  destruct (set_metadata_run metadata [ACreate; ARegisterFontkit] Ha)
    as (w & Hw & Fw).
  exists w. split; [exact Fw | ]. rewrite Hw. simpl.
  destruct (for_pages pages (ACreate :: ARegisterFontkit :: w))
    as [t [[] | ]]; reflexivity.
Qed.


(** The color an extracted text carries: the one of its item, black
    when the item has none. *)
Lemma api_texts_loop (vh : R) (items : list ColoredItem) :
  Forall (fun item =>
            let color := match item_color item with
                         | Some color => color
                         | None => [JS.JNum 0; JS.JNum 0; JS.JNum 0]
                         end in
            rgb_ok (channel color 0) (channel color 1) (channel color 2)
            && drawText_ok (str (run item)) (JS.JNum (item_height (run item)))
            = true) items ->
  forall t,
    for_of (map (fun item => TextOf (text_el vh item)) items) draw_el t
    = (t ++ map (fun item =>
                   let color := match item_color item with
                                | Some color => color
                                | None => [JS.JNum 0; JS.JNum 0; JS.JNum 0]
                                end in
                   ADrawText (str (run item)) (m4 (transform (run item)))
                     (vh - m5 (transform (run item)))
                     (item_height (run item))
                     (channel color 0) (channel color 1) (channel color 2))
                items,
       Some tt).
Proof.
  intros H. induction H as [ | item items Hitem _ IH]; intros t; simpl.
  - rewrite app_nil_r. reflexivity.
  - unfold bind. unfold draw_el at 1.
    unfold try_catch, bind, lift, ret. simpl. simpl in Hitem. rewrite Hitem.
    unfold api_emit at 1. rewrite IH, <- app_assoc. reflexivity.
Qed.

Lemma image_els_are_images (vh : R) (objs : string -> option RasterImage)
  (ops : list Op) :
  forall current,
    Forall (fun e => exists i, e = ImageOf i) (image_els vh objs current ops).
Proof.
  intros current.
  rewrite (proj1 (image_els_nothing vh objs ops current)). constructor.
Qed.

Lemma draw_images_run (es : list El) :
  Forall (fun e => exists i, e = ImageOf i) es ->
  forall t,
  exists w,
    for_of es draw_el t = (t ++ w, Some tt)
    /\ filter api_is_draw_text w = [].
Proof.
  intros H. induction H as [ | e es (i & ->) _ IH]; intros t; simpl.
  - exists []. rewrite app_nil_r. split; reflexivity.
  - unfold bind.
    assert (H1 : exists w1,
               draw_el (ImageOf i) t = (t ++ w1, Some tt)
               /\ filter api_is_draw_text w1 = []).
    { unfold draw_el, try_catch, bind, lift, api_emit, ret, throw.
      destruct (ie_data i) as [data | ].
      - destruct (String.eqb data "").
        + exists []. rewrite app_nil_r. split; reflexivity.
        + destruct (ApiApp.embed_image data) as [im | ];
            eexists; split; reflexivity.
      - exists []. rewrite app_nil_r. split; reflexivity. }
    destruct H1 as (w1 & H1 & F1). rewrite H1.
    destruct (IH (t ++ w1)) as (w2 & H2 & F2). rewrite H2.
    exists (w1 ++ w2). rewrite app_assoc. split; [reflexivity | ].
    rewrite filter_app, F1, F2. reflexivity.
Qed.

Lemma filter_map_all {A B : Type} (f : B -> bool) (g : A -> B)
  (l : list A) :
  (forall x, f (g x) = true) -> filter f (map g l) = map g l.
Proof.
  intros H. induction l as [ | x l IH]; simpl; [reflexivity | ].
  rewrite H, IH. reflexivity.
Qed.

(** X17: a page extracted by /api/pdf-to-json and given back to
    /api/json-to-pdf has every text run redrawn, in run order, at the
    [x] of its transform and at the page height minus the [y] of its
    transform: the extractor converts the [y] and the reconstructor
    draws it as it is, so the run comes back mirrored top to bottom.
    Its size is the height of the run and its color the one of the item,
    black when the item has none. *)
Theorem api_texts_redrawn_mirrored (page : Page) (n : nat)
  (items : list ColoredItem) (els : list El) :
  api_items page = Some items ->
  extractPageElements page = Some els ->
  api_rotation page = 0 ->
  Forall (fun item =>
            let color := match item_color item with
                         | Some color => color
                         | None => [JS.JNum 0; JS.JNum 0; JS.JNum 0]
                         end in
            rgb_ok (channel color 0) (channel color 1) (channel color 2)
            && drawText_ok (str (run item)) (JS.JNum (item_height (run item)))
            = true) items ->
  exists w,
    draw_page_info
      (mkPageInfo n (Some (api_width page)) (Some (api_height page))
                  (Some (api_rotation page)) (Some els)) []
    = (AAddPage (JS.num_or (api_width page) 612)
                (JS.num_or (api_height page) 792) :: w,
       Some tt)
    /\ filter api_is_draw_text w
       = map (fun item =>
                let color := match item_color item with
                             | Some color => color
                             | None => [JS.JNum 0; JS.JNum 0; JS.JNum 0]
                             end in
                ADrawText (str (run item)) (m4 (transform (run item)))
                  (api_height page - m5 (transform (run item)))
                  (item_height (run item))
                  (channel color 0) (channel color 1) (channel color 2))
             items.
Proof.
  intros Hitems Hels Hrot Hok.
  unfold extractPageElements in Hels. rewrite Hitems in Hels.
  destruct (api_ops page) as [ops | ]; [ | discriminate].
  injection Hels as <-.
  unfold draw_page_info, bind, api_emit, ret. simpl.
  rewrite Hrot. destruct (Req_dec_T 0 0) as [_ | Hne];
    [ | exfalso; apply Hne; reflexivity].
  rewrite for_of_app. unfold bind.
  rewrite (api_texts_loop (api_height page) items Hok).
  destruct (draw_images_run _ (image_els_are_images (api_height page)
                                 (api_objs page) ops (Some identity))
              ([AAddPage (JS.num_or (api_width page) 612)
                         (JS.num_or (api_height page) 792)]
               ++ map (fun item =>
                   let color := match item_color item with
                                | Some color => color
                                | None => [JS.JNum 0; JS.JNum 0; JS.JNum 0]
                                end in
                   ADrawText (str (run item)) (m4 (transform (run item)))
                     (api_height page - m5 (transform (run item)))
                     (item_height (run item))
                     (channel color 0) (channel color 1) (channel color 2))
                items))
    as (w2 & H2 & F2).
  rewrite H2. eexists. split; [reflexivity | ].
  rewrite filter_app, F2, app_nil_r.
  apply filter_map_all. intros item. reflexivity.
Qed.

(** X18: /api/json-to-pdf never draws a text element that carries no
    [color]: reading its channels throws, the [catch] of the element
    logs it and the element is left out.  A request whose pages hold
    only such texts is answered 200 with blank pages. *)
Theorem api_texts_without_color_left_out (metadata : MetadataField)
  (ps : list PageInfo) :
  metadata_truthy metadata = true ->
  metadata_accepted metadata = true ->
  Forall (fun p =>
            info_rotation p = None
            /\ exists es,
                 info_elements p = Some es
                 /\ Forall (fun e => exists t,
                                       e = TextOf t /\ te_color t = None) es)
         ps ->
  snd (json_to_pdf metadata (PagesArr ps)) = Ok200 tt
  /\ filter api_is_drawing (fst (json_to_pdf metadata (PagesArr ps)))
     = map (fun p => AAddPage (dimension (info_width p) 612)
                              (dimension (info_height p) 792)) ps.
Proof.
  intros Hm Ha Hps.
  destruct (json_to_pdf_run metadata (PagesArr ps) Hm Ha eq_refl)
    as (w & Fw & Hrun).
  rewrite Hrun.
  assert (Hpage : forall p, In p ps -> forall t, exists r,
    draw_page_info p t
    = (t ++ [AAddPage (dimension (info_width p) 612)
                      (dimension (info_height p) 792)] ++ r, Some tt)
    /\ Forall (fun c => exists m, c = AConsoleError m) r).
  { intros p Hp t. rewrite Forall_forall in Hps.
    destruct (Hps p Hp) as (Hrot & es & Hes & Hall).
    unfold draw_page_info, bind, api_emit, ret. rewrite Hrot, Hes.
    assert (Hloop : forall t', exists r,
      for_of es draw_el t' = (t' ++ r, Some tt)
      /\ Forall (fun c => exists m, c = AConsoleError m) r).
    { clear - Hall. induction Hall as [ | e es (te & -> & Hc) _ IH];
        intros t'; simpl.
      - exists []. rewrite app_nil_r. split; [reflexivity | constructor].
      - unfold bind. unfold draw_el at 1.
        unfold try_catch, bind, lift, throw, api_emit. rewrite Hc.
        destruct (IH (t' ++ [AConsoleError "Error reconstructing element:"]))
          as (r & Hr & Fr).
        rewrite Hr. eexists. rewrite <- app_assoc.
        split; [reflexivity | ].
        constructor; [eexists; reflexivity | exact Fr]. }
    destruct (Hloop (t ++ [AAddPage (dimension (info_width p) 612)
                             (dimension (info_height p) 792)]))
      as (r & Hr & Fr).
    rewrite Hr. exists r. rewrite <- app_assoc.
    split; [reflexivity | exact Fr]. }
  destruct (for_of_run (fun c => exists m, c = AConsoleError m) ps
              draw_page_info
              (fun p => [AAddPage (dimension (info_width p) 612)
                                  (dimension (info_height p) 792)])
              Hpage ([ACreate; ARegisterFontkit] ++ w))
    as (ws & Hws & Fws).
  change (for_of ps draw_page_info ([ACreate; ARegisterFontkit] ++ w))
    with (for_pages (PagesArr ps) ([ACreate; ARegisterFontkit] ++ w)) in Hws.
  rewrite Hws. cbv beta iota. unfold fst, snd.
  split; [reflexivity | ].
  rewrite !filter_app. simpl.
  rewrite (filter_nothing (fun c => exists f x, c = ASet f x)
             api_is_drawing w)
    by (try exact Fw; intros c (f & x & ->); reflexivity).
  rewrite (Fws api_is_drawing) by (intros c (m & ->); reflexivity).
  rewrite app_nil_r. simpl.
  clear. induction ps as [ | p ps IH]; simpl; [reflexivity | ].
  rewrite IH. reflexivity.
Qed.

(** X19: a string given as [pages] passes the test of /api/json-to-pdf
    when it is not empty and is walked code point by code point: the
    answer is 200 and the document has one blank page of 612 by 792 per
    code point of the string. *)
Theorem api_string_pages_give_blank_pages (metadata : MetadataField)
  (s : string) :
  metadata_truthy metadata = true ->
  metadata_accepted metadata = true ->
  s <> EmptyString ->
  snd (json_to_pdf metadata (PagesOth (JS.JStr s))) = Ok200 tt
  /\ filter api_is_drawing
       (fst (json_to_pdf metadata (PagesOth (JS.JStr s))))
     = repeat (AAddPage 612 792) (List.length (characters s)).
Proof.
  intros Hm Ha Hs.
  assert (Hp : pages_truthy (PagesOth (JS.JStr s)) = true).
  { simpl. destruct s; [contradiction Hs; reflexivity | reflexivity]. }
  destruct (json_to_pdf_run metadata (PagesOth (JS.JStr s)) Hm Ha Hp)
    as (w & Fw & Hrun).
  rewrite Hrun.
  assert (Hblank : forall c : ascii, In c (characters s) ->
            forall t, exists r,
              draw_page_info blank_page t
              = (t ++ [AAddPage 612 792] ++ r, Some tt)
              /\ Forall (fun _ : ApiCall => False) r).
  { intros c _ t. exists []. split; [reflexivity | constructor]. }
  destruct (for_of_run (fun _ => False) (characters s)
              (fun _ => draw_page_info blank_page)
              (fun _ => [AAddPage 612 792])
              Hblank
              ([ACreate; ARegisterFontkit] ++ w))
    as (ws & Hws & Fws).
  change (for_of (characters s) (fun _ => draw_page_info blank_page)
            ([ACreate; ARegisterFontkit] ++ w))
    with (for_pages (PagesOth (JS.JStr s))
            ([ACreate; ARegisterFontkit] ++ w)) in Hws.
  rewrite Hws. cbv beta iota. unfold fst, snd.
  split; [reflexivity | ].
  rewrite !filter_app. simpl.
  rewrite (filter_nothing (fun c => exists f x, c = ASet f x)
             api_is_drawing w)
    by (try exact Fw; intros c (f & x & ->); reflexivity).
  rewrite (Fws api_is_drawing) by (intros c []).
  rewrite app_nil_r. simpl.
  clear. induction (characters s) as [ | c l IH]; simpl; [reflexivity | ].
  rewrite IH. reflexivity.
Qed.

(** X20: pages that are truthy but neither an array nor a string (a
    number, [true], an object) pass the test of /api/json-to-pdf and fail
    in its page loop: the answer is 500, not 400, after the document was
    created, and the document is not serialized. *)
Theorem api_truthy_non_iterable_pages_fail_late (metadata : MetadataField)
  (v : JS.value) :
  metadata_truthy metadata = true ->
  metadata_accepted metadata = true ->
  JS.truthy v = true ->
  (forall s, v <> JS.JStr s) ->
  snd (json_to_pdf metadata (PagesOth v)) = Failed 500 "Error generating PDF"
  /\ In ACreate (fst (json_to_pdf metadata (PagesOth v)))
  /\ ~ In ASave (fst (json_to_pdf metadata (PagesOth v))).
Proof.
  intros Hm Ha Hv Hns.
  destruct (json_to_pdf_run metadata (PagesOth v) Hm Ha Hv)
    as (w & Fw & Hrun).
  rewrite Hrun.
  assert (Hthrow : for_pages (PagesOth v) ([ACreate; ARegisterFontkit] ++ w)
                   = ([ACreate; ARegisterFontkit] ++ w, None)).
  { destruct v as [ | | b | r | s | ]; try reflexivity.
    exfalso. apply (Hns s). reflexivity. }
  rewrite Hthrow. cbv beta iota. unfold fst, snd.
  split; [reflexivity | ]. split.
  - left. reflexivity.
  - intros H. simpl in H. destruct H as [H | [H | H]]; try discriminate.
    apply in_app_or in H. destruct H as [H | [H | []]]; [ | discriminate].
    rewrite Forall_forall in Fw. destruct (Fw ASave H) as (f & x & Hfx).
    discriminate.
Qed.

End ApiReconstruction.

Lemma api_rejects_falsy_metadata_or_pages_witness :
  @ApiRoutes.json_to_pdf Sample.pdflib Sample.sharp ApiSample.apipdflib
    ApiSample.demo_metadata (ApiRoutes.PagesOth JS.JUndefined)
  = ([], Failed 400
           "Invalid JSON structure. Metadata and pages are required.").
Proof.
  exact (proj2 (@api_rejects_falsy_metadata_or_pages Sample.pdflib
                  Sample.sharp ApiSample.apipdflib ApiSample.demo_metadata
                  (ApiRoutes.PagesOth JS.JUndefined)) eq_refl).
Defined.


Lemma api_texts_redrawn_mirrored_witness :
  exists w,
    @ApiRoutes.draw_page_info Sample.pdflib Sample.sharp ApiSample.apipdflib
      (ApiRoutes.mkPageInfo 1 (Some 612) (Some 792) (Some 0)
         (@ApiRoutes.extractPageElements Sample.pdfjs ApiSample.page)) []
    = (ApiRoutes.AAddPage (JS.num_or 612 612) (JS.num_or 792 792) :: w,
       Some tt)
    /\ filter ApiRoutes.api_is_draw_text w
       = [ApiRoutes.ADrawText "Hello" 72 (792 - 700) 12
            (ApiRoutes.channel [JS.JNum 0; JS.JNum 0; JS.JNum 0] 0)
            (ApiRoutes.channel [JS.JNum 0; JS.JNum 0; JS.JNum 0] 1)
            (ApiRoutes.channel [JS.JNum 0; JS.JNum 0; JS.JNum 0] 2)].
Proof.
  refine (@api_texts_redrawn_mirrored Sample.pdfjs Sample.pdflib Sample.sharp
            ApiSample.apipdflib ApiSample.page 1 [ApiSample.item] _
            eq_refl eq_refl eq_refl _).
  repeat constructor.
Defined.

Lemma api_texts_without_color_left_out_witness :
  filter ApiRoutes.api_is_drawing
    (fst (@ApiRoutes.json_to_pdf Sample.pdflib Sample.sharp
            ApiSample.apipdflib ApiSample.demo_metadata
            (ApiRoutes.PagesArr
               [ApiRoutes.mkPageInfo 1 (Some 612) (Some 792) None
                  (Some [ApiSample.colorless; ApiSample.colorless])])))
  = [ApiRoutes.AAddPage (JS.num_or 612 612) (JS.num_or 792 792)].
Proof.
  refine (proj2 (@api_texts_without_color_left_out Sample.pdflib Sample.sharp
                   ApiSample.apipdflib ApiSample.demo_metadata
                   [ApiRoutes.mkPageInfo 1 (Some 612) (Some 792) None
                      (Some [ApiSample.colorless; ApiSample.colorless])]
                   eq_refl eq_refl _)).
  constructor; [ | constructor].
  split; [reflexivity | ].
  eexists. split; [reflexivity | ].
  repeat (constructor; [eexists; split; reflexivity | ]). constructor.
Defined.

Lemma api_string_pages_give_blank_pages_witness :
  filter ApiRoutes.api_is_drawing
    (fst (@ApiRoutes.json_to_pdf Sample.pdflib Sample.sharp
            ApiSample.apipdflib ApiSample.demo_metadata
            (ApiRoutes.PagesOth (JS.JStr ApiSample.two_code_points))))
  = [ApiRoutes.AAddPage 612 792; ApiRoutes.AAddPage 612 792].
Proof.
  refine (proj2 (@api_string_pages_give_blank_pages Sample.pdflib
                   Sample.sharp ApiSample.apipdflib ApiSample.demo_metadata
                   ApiSample.two_code_points eq_refl eq_refl _)).
  discriminate.
Defined.

Lemma api_truthy_non_iterable_pages_fail_late_witness :
  snd (@ApiRoutes.json_to_pdf Sample.pdflib Sample.sharp ApiSample.apipdflib
         ApiSample.demo_metadata (ApiRoutes.PagesOth JS.JObject))
  = Failed 500 "Error generating PDF".
Proof.
  refine (proj1 (@api_truthy_non_iterable_pages_fail_late Sample.pdflib
                   Sample.sharp ApiSample.apipdflib ApiSample.demo_metadata
                   JS.JObject eq_refl eq_refl eq_refl _)).
  intros s. discriminate.
Defined.

(* ===================================================================== *)
(** * Image sources                                                       *)
(* ===================================================================== *)

Section ImageSources.
Context {pdflib : PdfLib} {sharp : Sharp}.

Local Open Scope string_scope.

Lemma drop_word_label (label rest : string) :
  all_chars JS.is_word_char label = true ->
  JS.drop_word (label ++ ";" ++ rest) = ";" ++ rest.
Proof.
  induction label as [ | c label IH]; simpl; intros H; [reflexivity | ].
  apply andb_prop in H. destruct H as [Hc Hl]. rewrite Hc. apply IH. exact Hl.
Qed.

Lemma word_char_not_comma (c : ascii) :
  JS.is_word_char c = true -> Ascii.eqb c ","%char = false.
Proof.
  intros H. destruct (Ascii.eqb_spec c ","%char) as [-> | _];
    [discriminate H | reflexivity].
Qed.

Lemma split_label (label rest : string) :
  all_chars JS.is_word_char label = true ->
  ApiRoutes.split_comma_1 (label ++ rest) = ApiRoutes.split_comma_1 rest.
Proof.
  induction label as [ | c label IH]; simpl; intros H; [reflexivity | ].
  apply andb_prop in H. destruct H as [Hc Hl].
  rewrite (word_char_not_comma c Hc). apply IH. exact Hl.
Qed.

Lemma up_to_comma_all (payload : string) :
  all_chars not_comma payload = true ->
  ApiRoutes.up_to_comma payload = payload.
Proof.
  induction payload as [ | c payload IH]; simpl; intros H; [reflexivity | ].
  apply andb_prop in H. destruct H as [Hc Hp].
  unfold not_comma in Hc. apply negb_true_iff in Hc. rewrite Hc.
  rewrite (IH Hp). reflexivity.
Qed.

Lemma strip_prefix_app (p s : string) :
  JS.strip_prefix p (p ++ s) = Some s.
Proof.
  induction p as [ | c p IH]; simpl; [reflexivity | ].
  rewrite Ascii.eqb_refl. exact IH.
Qed.

(** X21: of a data URI [data:image/<label>;base64,<payload>] with a
    label of word characters the reconstructor decodes the payload and
    nothing else, whatever the label says; a source that does not start
    with [data:image/] is decoded as it is; and the /api extractor,
    which cuts the data URL at its comma, stores that same payload. *)
Theorem data_uri_gives_its_payload (label payload : string) :
  label <> "" ->
  all_chars JS.is_word_char label = true ->
  JS.strip_data_uri ("data:image/" ++ label ++ ";base64," ++ payload)
  = payload
  /\ (all_chars not_comma payload = true ->
      ApiRoutes.split_comma_1
        ("data:image/" ++ label ++ ";base64," ++ payload)
      = Some payload)
  /\ (forall src,
        JS.strip_prefix "data:image/" src = None ->
        JS.strip_data_uri src = src).
Proof.
  intros Hne Hlabel. split; [ | split].
  - unfold JS.strip_data_uri.
    rewrite (strip_prefix_app "data:image/").
    destruct label as [ | c label]; [contradiction Hne; reflexivity | ].
    simpl in Hlabel. apply andb_prop in Hlabel. destruct Hlabel as [Hc Hl].
    change (String c label ++ ";base64," ++ payload)
      with (String c (label ++ ";" ++ ("base64," ++ payload))).
    cbv iota beta. rewrite Hc.
    change (JS.drop_word (String c (label ++ ";" ++ ("base64," ++ payload))))
      with (if JS.is_word_char c
            then JS.drop_word (label ++ ";" ++ ("base64," ++ payload))
            else String c (label ++ ";" ++ ("base64," ++ payload))).
    rewrite Hc, (drop_word_label label _ Hl).
    change (";" ++ "base64," ++ payload) with (";base64," ++ payload).
    rewrite (strip_prefix_app ";base64,"). reflexivity.
  - intros Hp. simpl.
    change (label ++ ";base64," ++ payload)
      with (label ++ (";base64," ++ payload)).
    rewrite (split_label label _ Hlabel). simpl.
    rewrite (up_to_comma_all payload Hp). reflexivity.
  - intros src H. unfold JS.strip_data_uri. rewrite H. reflexivity.
Qed.

(** X22: /api/json-to-pdf leaves an image out only when every embedder
    it tries refuses the bytes: the one for the format sharp reads in
    them, when that is JPEG or PNG, and the generic one.  When the
    generic embedder takes the bytes the image is always embedded, and
    what is embedded is the decoded [data]. *)
Theorem api_image_left_out_only_when_refused (data : string) :
  (ApiApp.embed_image data = None
   <-> generic_ok (base64_decode data) = false
       /\ match metadata_format (base64_decode data) with
          | Some format =>
              if String.eqb format "jpeg"
              then jpg_ok (base64_decode data) = false
              else if String.eqb format "png"
                   then png_ok (base64_decode data) = false
                   else True
          | None => True
          end)
  /\ (forall image,
        ApiApp.embed_image data = Some image ->
        content image = base64_decode data)
  /\ (generic_ok (base64_decode data) = true ->
      ApiApp.embed_image data <> None).
Proof.
  unfold ApiApp.embed_image, embedJpg, embedPng, embedImage.
  destruct (metadata_format (base64_decode data)) as [format | ].
  - destruct (String.eqb format "jpeg").
    + destruct (jpg_ok (base64_decode data)),
               (generic_ok (base64_decode data));
        repeat split; try discriminate; try tauto;
        try (intros image H; injection H as <-; reflexivity);
        try (intros [H _]; discriminate H);
        try (intros [_ H]; discriminate H).
    + destruct (String.eqb format "png").
      * destruct (png_ok (base64_decode data)),
                 (generic_ok (base64_decode data));
          repeat split; try discriminate; try tauto;
          try (intros image H; injection H as <-; reflexivity);
          try (intros [H _]; discriminate H);
          try (intros [_ H]; discriminate H).
      * destruct (generic_ok (base64_decode data));
          repeat split; try discriminate; try tauto;
          try (intros image H; injection H as <-; reflexivity);
          try (intros [H _]; discriminate H).
  - destruct (generic_ok (base64_decode data));
      repeat split; try discriminate; try tauto;
      try (intros image H; injection H as <-; reflexivity);
      try (intros [H _]; discriminate H).
Qed.

End ImageSources.

Lemma data_uri_gives_its_payload_witness :
  JS.strip_data_uri ("data:image/jpeg;base64," ++ Sample.jpeg_payload)
  = Sample.jpeg_payload
  /\ ApiRoutes.split_comma_1
       ("data:image/jpeg;base64," ++ Sample.jpeg_payload)
     = Some Sample.jpeg_payload.
Proof.
  destruct (data_uri_gives_its_payload "jpeg" Sample.jpeg_payload)
    as (Hstrip & Hsplit & _).
  - discriminate.
  - reflexivity.
  - split; [exact Hstrip | exact (Hsplit eq_refl)].
Defined.

Lemma api_image_left_out_only_when_refused_witness :
  @ApiApp.embed_image Sample.pdflib Sample.sharp "AAAA" = None
  /\ @ApiApp.embed_image Sample.pdflib Sample.sharp Sample.jpeg_payload
     <> None.
Proof.
  split.
  - apply (proj1 (@api_image_left_out_only_when_refused Sample.pdflib
                    Sample.sharp "AAAA")).
    split; reflexivity.
  - apply (proj2 (proj2 (@api_image_left_out_only_when_refused Sample.pdflib
                           Sample.sharp Sample.jpeg_payload))).
    reflexivity.
Defined.
